(** * Fleecy-Cloud: the OpenStack service of the backend

    A shallow embedding of [backend/services/virual_machine_service.go]
    and the properties of its authentication and resource-query flow.

    The Go code talks to three things outside itself: the HTTP client
    ([http.NewRequest], [client.Do]), the clock ([time.Now]) and the JSON
    codec ([json.Unmarshal]).  They are gathered in one record, [Env]; the
    service functions are written in a small monad that threads the list of
    effects performed so far, so that "no request is sent" and "lookups
    happen in list order" are statements about that list.  The receiver
    [*OpenStackService] holds nothing but the HTTP client, which is part of
    the environment, and is left out of the signatures.

    Conventions.  Go pointers received by the service ([*Participant],
    [*VirtualMachine]) are taken to be non-nil.  A Go [int] is a 64-bit
    integer, modelled as a [Z] that the decoder keeps within range.  A nil
    map or slice and an empty one are not told apart.  A Go function
    returning [(value, error)] returns a [result].

    Contents: JSON documents and their decoding into Go values; the data
    model; HTTP; the environment and the monad; the service, function by
    function; a JSON scanner and a scripted server to run the service on;
    the properties. *)

From Stdlib Require Import ZArith String Ascii List Lia DecimalString.
From Stdlib Require Import Floats.SpecFloat.
From stdpp Require Import base option list gmap strings.

Set Warnings "-register-all".

Local Open Scope string_scope.
Local Open Scope Z_scope.
Local Open Scope list_scope.

(** ** Errors and results *)

(** A Go [error] is observed through its message only. *)
Definition error := string.

Inductive result (A : Type) : Type :=
| Ok (a : A)
| Err (e : error).
Arguments Ok {A} a.
Arguments Err {A} e.

Definition result_bind {A B} (r : result A) (k : A -> result B) : result B :=
  match r with Ok a => k a | Err e => Err e end.

(** [mapM] for [result], left to right: the first failure wins. *)
Fixpoint result_mapM {A B} (f : A -> result B) (l : list A) : result (list B) :=
  match l with
  | [] => Ok []
  | x :: l' =>
      result_bind (f x) (fun y =>
      result_bind (result_mapM f l') (fun ys => Ok (y :: ys)))
  end.

(** The [%d] verb of [fmt] on an integer. *)
Definition fmt_d (n : Z) : string := NilZero.string_of_int (Z.to_int n).

(** ** JSON documents *)

Module Json.

(** The syntax tree of a JSON text.  A number keeps its literal, as the
    decoder of [encoding/json] converts it only once the target type is
    known; an object keeps its members in order, duplicates included. *)
Inductive value : Type :=
| Null
| Bool (b : bool)
| Number (lit : string)
| String (s : string)
| Array (xs : list value)
| Object (members : list (string * value)).

(** The name of a JSON value in an [UnmarshalTypeError]. *)
Definition kind (v : value) : string :=
  match v with
  | Null => "null"
  | Bool _ => "bool"
  | Number lit => "number " +:+ lit
  | String _ => "string"
  | Array _ => "array"
  | Object _ => "object"
  end.

(** The message of an [UnmarshalTypeError].  The service only embeds it
    in its own messages; the wording Go adds when the target is a struct
    field is left out. *)
Definition type_error (v : value) (go_type : string) : error :=
  "json: cannot unmarshal " +:+ kind v +:+ " into Go value of type " +:+ go_type.

(** Stores into one part of a larger value. *)
Definition into {T F} (get : T -> F) (set : F -> T -> T) (d : F -> value -> result F)
    : T -> value -> result T :=
  fun cur v => result_bind (d (get cur) v) (fun f => Ok (set f cur)).

(** *** Key folding

    A member name selects the struct field whose tag equals it, or else
    the field whose tag equals it under case folding.  All tags of this
    file are ASCII; the only non-ASCII runes that fold onto ASCII letters
    are U+017F (long s) and U+212A (Kelvin sign). *)
Definition upper_ascii (c : ascii) : ascii :=
  let n := N_of_ascii c in
  if ((97 <=? n) && (n <=? 122))%N then ascii_of_N (n - 32) else c.

Fixpoint fold_name (s : string) : string :=
  match s with
  | EmptyString => EmptyString
  | String.String c1 s1 =>
      match s1 with
      | String.String c2 s2 =>
          if ((N_of_ascii c1 =? 197) && (N_of_ascii c2 =? 191))%N
          then String.String "S"%char (fold_name s2)
          else
            match s2 with
            | String.String c3 s3 =>
                if ((N_of_ascii c1 =? 226) && (N_of_ascii c2 =? 132)
                    && (N_of_ascii c3 =? 170))%N
                then String.String "K"%char (fold_name s3)
                else String.String (upper_ascii c1) (fold_name s1)
            | EmptyString => String.String (upper_ascii c1) (fold_name s1)
            end
      | EmptyString => String.String (upper_ascii c1) EmptyString
      end
  end.

(** *** Decoding into Go values

    A decoder receives the current content of the Go variable and the
    JSON value, and gives the new content.  [null] leaves strings,
    integers and structs as they are.  The first type mismatch is the
    error [json.Unmarshal] reports; every caller in the service drops the
    decoded value when an error is reported, so decoding stops there. *)
Definition decoder (T : Type) : Type := T -> value -> result T.

Definition dec_string : decoder string := fun cur v =>
  match v with
  | Null => Ok cur
  | String s => Ok s
  | _ => Err (type_error v "string")
  end.

(** [strconv.ParseInt(lit, 10, 64)] on a literal the scanner accepted:
    an optional sign and digits only, within the 64-bit range. *)
Fixpoint digits_value (s : string) (acc : Z) : option Z :=
  match s with
  | EmptyString => Some acc
  | String.String c s' =>
      let n := N_of_ascii c in
      if ((48 <=? n) && (n <=? 57))%N
      then digits_value s' (10 * acc + Z.of_N (n - 48))
      else None
  end.

Definition parse_int (lit : string) : option Z :=
  let signed :=
    match lit with
    | String.String "-"%char (String.String c r) =>
        option_map Z.opp (digits_value (String.String c r) 0)
    | String.String _ _ => digits_value lit 0
    | EmptyString => None
    end in
  match signed with
  | Some z => if (- 2 ^ 63 <=? z) && (z <? 2 ^ 63) then Some z else None
  | None => None
  end.

Definition dec_int : decoder Z := fun cur v =>
  match v with
  | Null => Ok cur
  | Number lit =>
      match parse_int lit with
      | Some z => Ok z
      | None => Err (type_error v "int")
      end
  | _ => Err (type_error v "int")
  end.

(** A struct is described by its tagged fields, each with the decoder
    that stores into it. *)
Definition field (T : Type) : Type := (string * decoder T)%type.

Definition find_field {T} (fields : list (field T)) (key : string) : option (decoder T) :=
  match List.find (fun f => String.eqb (fst f) key) fields with
  | Some f => Some (snd f)
  | None =>
      match List.find (fun f => String.eqb (fold_name (fst f)) (fold_name key)) fields with
      | Some f => Some (snd f)
      | None => None
      end
  end.

Fixpoint dec_members {T} (fields : list (field T)) (cur : T)
    (members : list (string * value)) : result T :=
  match members with
  | [] => Ok cur
  | (key, v) :: rest =>
      match find_field fields key with
      | Some d => result_bind (d cur v) (fun cur' => dec_members fields cur' rest)
      | None => dec_members fields cur rest
      end
  end.

Definition dec_struct {T} (go_type : string) (fields : list (field T)) : decoder T :=
  fun cur v =>
    match v with
    | Null => Ok cur
    | Object members => dec_members fields cur members
    | _ => Err (type_error v go_type)
    end.

(** A slice, as the package documents it, is reset and refilled, each
    element decoded from the zero value; [null] gives the nil slice. *)
Definition dec_slice {E} (go_type : string) (zero : E) (elt : decoder E) : decoder (list E) :=
  fun _ v =>
    match v with
    | Null => Ok []
    | Array xs => result_mapM (elt zero) xs
    | _ => Err (type_error v go_type)
    end.

(** A map keeps its entries; each member is decoded from the zero value
    and stored under its name.  [null] gives the nil map. *)
Fixpoint dec_entries {E} (zero : E) (elt : decoder E) (cur : gmap string E)
    (members : list (string * value)) : result (gmap string E) :=
  match members with
  | [] => Ok cur
  | (key, v) :: rest =>
      result_bind (elt zero v) (fun e => dec_entries zero elt (<[key := e]> cur) rest)
  end.

Definition dec_map {E} (go_type : string) (zero : E) (elt : decoder E) : decoder (gmap string E) :=
  fun cur v =>
    match v with
    | Null => Ok ∅
    | Object members => dec_entries zero elt cur members
    | _ => Err (type_error v go_type)
    end.

End Json.

(** ** The data model of the service *)

(** [FlavorDetails]: the size template of an instance. *)
Module FlavorDetails.
Record t : Type := mk {
  ID : string;
  Name : string;
  VCPUs : Z;
  RAM : Z;
  Disk : Z
}.
Definition zero : t := mk "" "" 0 0 0.

Definition fields : list (Json.field t) :=
  [ ("id", Json.into ID (fun x f => mk x (Name f) (VCPUs f) (RAM f) (Disk f)) Json.dec_string);
    ("name", Json.into Name (fun x f => mk (ID f) x (VCPUs f) (RAM f) (Disk f)) Json.dec_string);
    ("vcpus", Json.into VCPUs (fun x f => mk (ID f) (Name f) x (RAM f) (Disk f)) Json.dec_int);
    ("ram", Json.into RAM (fun x f => mk (ID f) (Name f) (VCPUs f) x (Disk f)) Json.dec_int);
    ("disk", Json.into Disk (fun x f => mk (ID f) (Name f) (VCPUs f) (RAM f) x) Json.dec_int) ].
Definition decode : Json.decoder t := Json.dec_struct "services.FlavorDetails" fields.
End FlavorDetails.

(** One entry of an address list: [struct { Addr; Type }].  The Go field
    [Type] is spelled [Type_] here. *)
Module Address.
Record t : Type := mk {
  Addr : string;
  Type_ : string
}.
Definition zero : t := mk "" "".

Definition fields : list (Json.field t) :=
  [ ("addr", Json.into Addr (fun x a => mk x (Type_ a)) Json.dec_string);
    ("OS-EXT-IPS:type", Json.into Type_ (fun x a => mk (Addr a) x) Json.dec_string) ].
Definition decode : Json.decoder t := Json.dec_struct "struct" fields.

(** [map[string][]struct{...}]: network name to its addresses. *)
Definition decode_map : Json.decoder (gmap string (list t)) :=
  Json.dec_map "map" [] (Json.dec_slice "slice" zero decode).
End Address.

(** [VMInstance]: the instance descriptor the service hands out. *)
Module VMInstance.
Record t : Type := mk {
  ID : string;
  Name : string;
  Status : string;
  Flavor : FlavorDetails.t;
  Addresses : gmap string (list Address.t);
  PowerState : Z;
  AvailabilityZone : string;
  Created : string;
  Updated : string
}.
Definition zero : t := mk "" "" "" FlavorDetails.zero ∅ 0 "" "" "".

Definition fields : list (Json.field t) :=
  [ ("id", Json.into ID
       (fun x i => mk x (Name i) (Status i) (Flavor i) (Addresses i) (PowerState i)
                      (AvailabilityZone i) (Created i) (Updated i)) Json.dec_string);
    ("name", Json.into Name
       (fun x i => mk (ID i) x (Status i) (Flavor i) (Addresses i) (PowerState i)
                      (AvailabilityZone i) (Created i) (Updated i)) Json.dec_string);
    ("status", Json.into Status
       (fun x i => mk (ID i) (Name i) x (Flavor i) (Addresses i) (PowerState i)
                      (AvailabilityZone i) (Created i) (Updated i)) Json.dec_string);
    ("flavor", Json.into Flavor
       (fun x i => mk (ID i) (Name i) (Status i) x (Addresses i) (PowerState i)
                      (AvailabilityZone i) (Created i) (Updated i)) FlavorDetails.decode);
    ("addresses", Json.into Addresses
       (fun x i => mk (ID i) (Name i) (Status i) (Flavor i) x (PowerState i)
                      (AvailabilityZone i) (Created i) (Updated i)) Address.decode_map);
    ("OS-EXT-STS:power_state", Json.into PowerState
       (fun x i => mk (ID i) (Name i) (Status i) (Flavor i) (Addresses i) x
                      (AvailabilityZone i) (Created i) (Updated i)) Json.dec_int);
    ("OS-EXT-AZ:availability_zone", Json.into AvailabilityZone
       (fun x i => mk (ID i) (Name i) (Status i) (Flavor i) (Addresses i) (PowerState i)
                      x (Created i) (Updated i)) Json.dec_string);
    ("created", Json.into Created
       (fun x i => mk (ID i) (Name i) (Status i) (Flavor i) (Addresses i) (PowerState i)
                      (AvailabilityZone i) x (Updated i)) Json.dec_string);
    ("updated", Json.into Updated
       (fun x i => mk (ID i) (Name i) (Status i) (Flavor i) (Addresses i) (PowerState i)
                      (AvailabilityZone i) (Created i) x) Json.dec_string) ].
Definition decode : Json.decoder t := Json.dec_struct "services.VMInstance" fields.
End VMInstance.

(** [VMListResponse]: the envelope [ListVMInstances] decodes. *)
Module VMListResponse.
Record t : Type := mk { Servers : list VMInstance.t }.
Definition zero : t := mk [].

Definition fields : list (Json.field t) :=
  [ ("servers", Json.into Servers (fun x _ => mk x)
       (Json.dec_slice "[]services.VMInstance" VMInstance.zero VMInstance.decode)) ].
Definition decode : Json.decoder t := Json.dec_struct "services.VMListResponse" fields.
End VMListResponse.

(** The anonymous struct that [GetAllVMInstances] and [GetVMInstance]
    decode a server into: as [VMInstance], but the flavor is a bare
    reference [struct { ID string }]. *)
Module FlavorRef.
Record t : Type := mk { ID : string }.
Definition zero : t := mk "".
Definition fields : list (Json.field t) :=
  [ ("id", Json.into ID (fun x _ => mk x) Json.dec_string) ].
Definition decode : Json.decoder t := Json.dec_struct "struct" fields.
End FlavorRef.

Module BasicServer.
Record t : Type := mk {
  ID : string;
  Name : string;
  Status : string;
  Flavor : FlavorRef.t;
  Addresses : gmap string (list Address.t);
  PowerState : Z;
  AvailabilityZone : string;
  Created : string;
  Updated : string
}.
Definition zero : t := mk "" "" "" FlavorRef.zero ∅ 0 "" "" "".

Definition fields : list (Json.field t) :=
  [ ("id", Json.into ID
       (fun x i => mk x (Name i) (Status i) (Flavor i) (Addresses i) (PowerState i)
                      (AvailabilityZone i) (Created i) (Updated i)) Json.dec_string);
    ("name", Json.into Name
       (fun x i => mk (ID i) x (Status i) (Flavor i) (Addresses i) (PowerState i)
                      (AvailabilityZone i) (Created i) (Updated i)) Json.dec_string);
    ("status", Json.into Status
       (fun x i => mk (ID i) (Name i) x (Flavor i) (Addresses i) (PowerState i)
                      (AvailabilityZone i) (Created i) (Updated i)) Json.dec_string);
    ("flavor", Json.into Flavor
       (fun x i => mk (ID i) (Name i) (Status i) x (Addresses i) (PowerState i)
                      (AvailabilityZone i) (Created i) (Updated i)) FlavorRef.decode);
    ("addresses", Json.into Addresses
       (fun x i => mk (ID i) (Name i) (Status i) (Flavor i) x (PowerState i)
                      (AvailabilityZone i) (Created i) (Updated i)) Address.decode_map);
    ("OS-EXT-STS:power_state", Json.into PowerState
       (fun x i => mk (ID i) (Name i) (Status i) (Flavor i) (Addresses i) x
                      (AvailabilityZone i) (Created i) (Updated i)) Json.dec_int);
    ("OS-EXT-AZ:availability_zone", Json.into AvailabilityZone
       (fun x i => mk (ID i) (Name i) (Status i) (Flavor i) (Addresses i) (PowerState i)
                      x (Created i) (Updated i)) Json.dec_string);
    ("created", Json.into Created
       (fun x i => mk (ID i) (Name i) (Status i) (Flavor i) (Addresses i) (PowerState i)
                      (AvailabilityZone i) x (Updated i)) Json.dec_string);
    ("updated", Json.into Updated
       (fun x i => mk (ID i) (Name i) (Status i) (Flavor i) (Addresses i) (PowerState i)
                      (AvailabilityZone i) (Created i) x) Json.dec_string) ].
Definition decode : Json.decoder t := Json.dec_struct "struct" fields.
End BasicServer.

(** The envelopes around it: [{ Servers []struct{...} }] of
    [GetAllVMInstances] and [{ Server struct{...} }] of [GetVMInstance]. *)
Module BasicListResponse.
Record t : Type := mk { Servers : list BasicServer.t }.
Definition zero : t := mk [].
Definition fields : list (Json.field t) :=
  [ ("servers", Json.into Servers (fun x _ => mk x)
       (Json.dec_slice "slice" BasicServer.zero BasicServer.decode)) ].
Definition decode : Json.decoder t := Json.dec_struct "struct" fields.
End BasicListResponse.

Module BasicResponse.
Record t : Type := mk { Server : BasicServer.t }.
Definition zero : t := mk BasicServer.zero.
Definition fields : list (Json.field t) :=
  [ ("server", Json.into Server (fun x _ => mk x) BasicServer.decode) ].
Definition decode : Json.decoder t := Json.dec_struct "struct" fields.
End BasicResponse.

(** The envelope of [GetFlavorDetails]: [{ Flavor FlavorDetails }]. *)
Module FlavorResponse.
Record t : Type := mk { Flavor : FlavorDetails.t }.
Definition zero : t := mk FlavorDetails.zero.
Definition fields : list (Json.field t) :=
  [ ("flavor", Json.into Flavor (fun x _ => mk x) FlavorDetails.decode) ].
Definition decode : Json.decoder t := Json.dec_struct "struct" fields.
End FlavorResponse.

(** The envelope of [GetVMRuntimeStatus]:
    [{ Server struct { Status string; PowerState int } }]. *)
Module RuntimeServer.
Record t : Type := mk { Status : string; PowerState : Z }.
Definition zero : t := mk "" 0.
Definition fields : list (Json.field t) :=
  [ ("status", Json.into Status (fun x s => mk x (PowerState s)) Json.dec_string);
    ("OS-EXT-STS:power_state", Json.into PowerState (fun x s => mk (Status s) x) Json.dec_int) ].
Definition decode : Json.decoder t := Json.dec_struct "struct" fields.
End RuntimeServer.

Module RuntimeResponse.
Record t : Type := mk { Server : RuntimeServer.t }.
Definition zero : t := mk RuntimeServer.zero.
Definition fields : list (Json.field t) :=
  [ ("server", Json.into Server (fun x _ => mk x) RuntimeServer.decode) ].
Definition decode : Json.decoder t := Json.dec_struct "struct" fields.
End RuntimeResponse.

(** Modelled from the spec: the [models] package ([Participant],
    [VirtualMachine], [VMMonitoringInfo], [VMRuntimeInfo]) is not among the
    sources.  The records below carry the fields the service reads or
    writes: the credential of the spec (endpoint URL, application-credential
    ID and secret), the instance id of a virtual machine, and the two
    result records as their composite literals in the service spell them. *)
Module models.
Module Participant.
Record t : Type := mk {
  OpenStackEndpoint : string;
  OpenStackApplicationCredentialID : string;
  OpenStackApplicationCredentialSecret : string
}.
End Participant.

Module VirtualMachine.
Record t : Type := mk { InstanceID : string }.
End VirtualMachine.

Module VMMonitoringInfo.
Record t : Type := mk {
  InstanceID : string;
  CPUUsage : spec_float;
  MemoryUsage : spec_float;
  DiskUsage : spec_float;
  NetworkInBytes : Z;
  NetworkOutBytes : Z;
  LastUpdated : Z
}.
End VMMonitoringInfo.

Module VMRuntimeInfo.
Record t : Type := mk {
  InstanceID : string;
  Status : string;
  PowerState : Z;
  LastChecked : Z
}.
End VMRuntimeInfo.
End models.

(** [VMHealthCheckResult]: what the health probe reports. *)
Module VMHealthCheckResult.
Record t : Type := mk {
  Healthy : bool;
  Status : string;
  Message : string;
  CheckedAt : Z;
  ResponseTime : Z
}.
End VMHealthCheckResult.

(** ** HTTP *)

Module http.

Definition StatusOK : Z := 200.
Definition StatusCreated : Z := 201.

(** [http.Header]: canonical field name to its values. *)
Abbreviation Header := (gmap string (list string)).

(** [textproto.CanonicalMIMEHeaderKey]: a name made of token bytes has the
    first letter and every letter after a hyphen in upper case and the
    others in lower case; any other name is left as it is. *)
Definition valid_header_byte (c : ascii) : bool :=
  let n := N_of_ascii c in
  ((48 <=? n) && (n <=? 57) || (65 <=? n) && (n <=? 90) || (97 <=? n) && (n <=? 122)
   || (n =? 33) || (35 <=? n) && (n <=? 39) || (n =? 42) || (n =? 43) || (n =? 45)
   || (n =? 46) || (n =? 94) || (n =? 95) || (n =? 96) || (n =? 124) || (n =? 126))%N.

Fixpoint all_valid (s : string) : bool :=
  match s with
  | EmptyString => true
  | String c s' => valid_header_byte c && all_valid s'
  end.

Definition lower_ascii (c : ascii) : ascii :=
  let n := N_of_ascii c in
  if ((65 <=? n) && (n <=? 90))%N then ascii_of_N (n + 32) else c.

Fixpoint canon (upper : bool) (s : string) : string :=
  match s with
  | EmptyString => EmptyString
  | String c s' =>
      let c' := if upper then Json.upper_ascii c else lower_ascii c in
      String c' (canon (Ascii.eqb c' "-"%char) s')
  end.

Definition CanonicalMIMEHeaderKey (s : string) : string :=
  if all_valid s then canon true s else s.

Definition Header_Set (h : Header) (key value : string) : Header :=
  <[CanonicalMIMEHeaderKey key := [value]]> h.

Definition Header_Get (h : Header) (key : string) : string :=
  match h !! CanonicalMIMEHeaderKey key with
  | Some (v :: _) => v
  | _ => ""
  end.

(** A request as [http.NewRequest] builds it.  The service sends either
    no body or the JSON encoding of a document; the document stands for
    its encoding. *)
Record Request : Type := mkRequest {
  Method : string;
  URL : string;
  ReqHeader : Header;
  ReqBody : option Json.value
}.

Definition Request_SetHeader (req : Request) (key value : string) : Request :=
  mkRequest (Method req) (URL req) (Header_Set (ReqHeader req) key value) (ReqBody req).

(** A response as [client.Do] returns it.  Reading the body gives the
    bytes received and, when the stream broke, an error. *)
Record Response : Type := mkResponse {
  StatusCode : Z;
  RespHeader : Header;
  Body : string;
  BodyErr : option error
}.

End http.

(** ** The world around the service *)

(** What the service does to the outside, in the order it does it. *)
Inductive Event : Type :=
| EvNewRequest (method url : string)
| EvDo (req : http.Request)
| EvNow.

(** The outside: how URLs are judged by [http.NewRequest] (the method is
    always a valid one), how JSON text is scanned, what the server behind
    the client answers and what the clock shows.  Server and clock may
    depend on everything that happened before. *)
Record Env : Type := mkEnv {
  url_Parse : string -> option error;
  json_scan : string -> result Json.value;
  client_Do : list Event -> http.Request -> result http.Response;
  clock : list Event -> Z
}.

(** Computations of the service: they read the environment and extend the
    history. *)
Definition M (A : Type) : Type := Env -> list Event -> A * list Event.

Definition ret {A} (a : A) : M A := fun _ h => (a, h).

Definition bind {A B} (m : M A) (k : A -> M B) : M B :=
  fun env h => let (a, h') := m env h in k a env h'.

Definition emit (ev : Event) : M unit := fun _ h => (tt, h ++ [ev]).

Definition ask {A} (f : Env -> list Event -> A) : M A := fun env h => (f env h, h).

Definition run {A} (m : M A) (env : Env) (h : list Event) : A := fst (m env h).
Definition history {A} (m : M A) (env : Env) (h : list Event) : list Event := snd (m env h).

Declare Scope go_scope.
Delimit Scope go_scope with go.
Notation "x <- c ;; k" := (bind c (fun x => k))
  (at level 100, c at next level, right associativity) : go_scope.
(** [v, err := c; if err != nil { return nil, msg }]. *)
Notation "'let?' x ':=' c 'else' e '=>' msg 'in' k" :=
  (bind c (fun r => match r with Ok x => k | Err e => ret (Err msg) end))
  (at level 100, x name, e name, c at next level, right associativity) : go_scope.
Local Open Scope go_scope.

(** [for _, x := range l { s = body(s, x) }]. *)
Fixpoint for_range {A S} (l : list A) (body : S -> A -> M S) (s : S) : M S :=
  match l with
  | [] => ret s
  | x :: l' => s' <- body s x ;; for_range l' body s'
  end.

Definition http_NewRequest (method url : string) (body : option Json.value)
    : M (result http.Request) :=
  _ <- emit (EvNewRequest method url) ;;
  perr <- ask (fun env _ => url_Parse env url) ;;
  match perr with
  | Some e => ret (Err e)
  | None => ret (Ok (http.mkRequest method url ∅ body))
  end.

Definition s_client_Do (req : http.Request) : M (result http.Response) :=
  r <- ask (fun env h => client_Do env h req) ;;
  _ <- emit (EvDo req) ;;
  ret r.

Definition io_ReadAll (resp : http.Response) : M (result string) :=
  match http.BodyErr resp with
  | Some e => ret (Err e)
  | None => ret (Ok (http.Body resp))
  end.

(** [json.Unmarshal(body, &v)] with [v] freshly declared: the text is
    checked first, then decoded into the zero value. *)
Definition unmarshal {T} (env : Env) (dec : Json.decoder T) (zero : T) (body : string)
    : result T :=
  result_bind (json_scan env body) (dec zero).

Definition json_Unmarshal {T} (dec : Json.decoder T) (zero : T) (body : string) : M (result T) :=
  ask (fun env _ => unmarshal env dec zero body).

(** Times are nanoseconds; a [Duration] saturates at the 64-bit bounds. *)
Definition time_Now : M Z :=
  t <- ask (fun env h => clock env h) ;;
  _ <- emit EvNow ;;
  ret t.

Definition time_Sub (t u : Z) : Z := Z.max (- 2 ^ 63) (Z.min (2 ^ 63 - 1) (t - u)).

Definition time_Since (start : Z) : M Z :=
  now <- time_Now ;; ret (time_Sub now start).

Definition Milliseconds (d : Z) : Z := Z.quot d 1000000.

(** ** The service *)

Import models.

(** [AuthRequest]: the body of the token request. *)
Module AuthRequest.
Record t : Type := mk {
  Methods : list string;
  ApplicationCredential : option (string * string)
}.

(** [json.Marshal]: a nil [Methods] is written as [null], a nil
    credential pointer is omitted.  Marshalling this type cannot fail. *)
Definition Marshal (a : t) : Json.value :=
  let methods :=
    match Methods a with
    | [] => Json.Null
    | ms => Json.Array (map Json.String ms)
    end in
  let credential :=
    match ApplicationCredential a with
    | Some (id, secret) =>
        [("application_credential",
          Json.Object [("id", Json.String id); ("secret", Json.String secret)])]
    | None => []
    end in
  Json.Object
    [("auth", Json.Object
       [("identity", Json.Object (("methods", methods) :: credential))])].
End AuthRequest.

(** The flavor put in place of one that could not be fetched: the literal
    [&FlavorDetails{ID: id, Name: "Unknown", VCPUs: 0, RAM: 0, Disk: 0}] of
    [GetAllVMInstances] and [GetVMInstance].  In both functions the
    [VMInstance] literal built afterwards names every field but
    [AvailabilityZone], which therefore keeps its zero value. *)
Definition unknown_flavor (flavorID : string) : FlavorDetails.t :=
  {| FlavorDetails.ID := flavorID;
     FlavorDetails.Name := "Unknown";
     FlavorDetails.VCPUs := 0;
     FlavorDetails.RAM := 0;
     FlavorDetails.Disk := 0 |}.

Definition GetAuthToken (participant : Participant.t) : M (result string) :=
  if negb (String.eqb (Participant.OpenStackApplicationCredentialID participant) "")
     && negb (String.eqb (Participant.OpenStackApplicationCredentialSecret participant) "")
  then
    let authReq :=
      {| AuthRequest.Methods := ["application_credential"];
         AuthRequest.ApplicationCredential :=
           Some (Participant.OpenStackApplicationCredentialID participant,
                 Participant.OpenStackApplicationCredentialSecret participant) |} in
    let jsonData := AuthRequest.Marshal authReq in
    let url := Participant.OpenStackEndpoint participant +:+ "/identity/v3/auth/tokens" in
    let? req := http_NewRequest "POST" url (Some jsonData)
      else err => "HTTP 요청 생성 실패: " +:+ err in
    let req := http.Request_SetHeader req "Content-Type" "application/json" in
    let? resp := s_client_Do req
      else err => "인증 요청 실패: " +:+ err in
    if negb (http.StatusCode resp =? http.StatusCreated)
    then ret (Err ("인증 실패: HTTP " +:+ fmt_d (http.StatusCode resp)))
    else
      let token := http.Header_Get (http.RespHeader resp) "X-Subject-Token" in
      if String.eqb token ""
      then ret (Err "인증 토큰을 받지 못했습니다")
      else ret (Ok token)
  else ret (Err "application Credential 인증 정보가 필요합니다").

Definition GetFlavorDetails (participant : Participant.t) (token flavorID : string)
    : M (result FlavorDetails.t) :=
  let url := Participant.OpenStackEndpoint participant +:+ "/compute/v2.1/flavors/" +:+ flavorID in
  let? req := http_NewRequest "GET" url None
    else err => "HTTP 요청 생성 실패: " +:+ err in
  let req := http.Request_SetHeader req "X-Auth-Token" token in
  let req := http.Request_SetHeader req "Accept" "application/json" in
  let? resp := s_client_Do req
    else err => "Flavor 정보 조회 실패: " +:+ err in
  if negb (http.StatusCode resp =? http.StatusOK)
  then ret (Err ("Flavor 정보 조회 실패: HTTP " +:+ fmt_d (http.StatusCode resp)))
  else
    let? body := io_ReadAll resp
      else err => "응답 읽기 실패: " +:+ err in
    let? response := json_Unmarshal FlavorResponse.decode FlavorResponse.zero body
      else err => "응답 파싱 실패: " +:+ err in
    ret (Ok (FlavorResponse.Flavor response)).

Definition GetAllVMInstances (participant : Participant.t) : M (result (list VMInstance.t)) :=
  let? token := GetAuthToken participant
    else err => "인증 실패: " +:+ err in
  let url := Participant.OpenStackEndpoint participant +:+ "/compute/v2.1/servers/detail" in
  let? req := http_NewRequest "GET" url None
    else err => "HTTP 요청 생성 실패: " +:+ err in
  let req := http.Request_SetHeader req "X-Auth-Token" token in
  let req := http.Request_SetHeader req "Accept" "application/json" in
  let? resp := s_client_Do req
    else err => "VM 목록 조회 실패: " +:+ err in
  let? body := io_ReadAll resp
    else err => "응답 읽기 실패: " +:+ err in
  if negb (http.StatusCode resp =? http.StatusOK)
  then ret (Err ("VM 목록 조회 실패: HTTP " +:+ fmt_d (http.StatusCode resp)
                 +:+ ", 응답: " +:+ body))
  else
    let? basicResponse := json_Unmarshal BasicListResponse.decode BasicListResponse.zero body
      else err => "응답 파싱 실패: " +:+ err +:+ ", 응답 내용: " +:+ body in
    vmInstances <-
      for_range (BasicListResponse.Servers basicResponse)
        (fun vmInstances server =>
           r <- GetFlavorDetails participant token (FlavorRef.ID (BasicServer.Flavor server)) ;;
           let flavorDetails :=
             match r with
             | Ok f => f
             | Err _ => unknown_flavor (FlavorRef.ID (BasicServer.Flavor server))
             end in
           let vmInstance :=
             {| VMInstance.ID := BasicServer.ID server;
                VMInstance.Name := BasicServer.Name server;
                VMInstance.Status := BasicServer.Status server;
                VMInstance.Flavor := flavorDetails;
                VMInstance.Addresses := BasicServer.Addresses server;
                VMInstance.PowerState := BasicServer.PowerState server;
                VMInstance.AvailabilityZone := "";
                VMInstance.Created := BasicServer.Created server;
                VMInstance.Updated := BasicServer.Updated server |} in
           ret (vmInstances ++ [vmInstance]))
        [] ;;
    ret (Ok vmInstances).

Definition GetVMInstance (vm : VirtualMachine.t) (participant : Participant.t)
    (token : string) : M (result VMInstance.t) :=
  if String.eqb (VirtualMachine.InstanceID vm) ""
  then ret (Err "VM 인스턴스 ID가 설정되지 않았습니다")
  else
    let url := Participant.OpenStackEndpoint participant +:+ "/compute/v2.1/servers/"
               +:+ VirtualMachine.InstanceID vm in
    let? req := http_NewRequest "GET" url None
      else err => "HTTP 요청 생성 실패: " +:+ err in
    let req := http.Request_SetHeader req "X-Auth-Token" token in
    let? resp := s_client_Do req
      else err => "VM 정보 조회 실패: " +:+ err in
    if negb (http.StatusCode resp =? http.StatusOK)
    then ret (Err ("VM 정보 조회 실패: HTTP " +:+ fmt_d (http.StatusCode resp)))
    else
      let? body := io_ReadAll resp
        else err => "응답 읽기 실패: " +:+ err in
      let? basicResponse := json_Unmarshal BasicResponse.decode BasicResponse.zero body
        else err => "응답 파싱 실패: " +:+ err in
      let server := BasicResponse.Server basicResponse in
      r <- GetFlavorDetails participant token (FlavorRef.ID (BasicServer.Flavor server)) ;;
      let flavorDetails :=
        match r with
        | Ok f => f
        | Err _ => unknown_flavor (FlavorRef.ID (BasicServer.Flavor server))
        end in
      let vmInstance :=
        {| VMInstance.ID := BasicServer.ID server;
           VMInstance.Name := BasicServer.Name server;
           VMInstance.Status := BasicServer.Status server;
           VMInstance.Flavor := flavorDetails;
           VMInstance.Addresses := BasicServer.Addresses server;
           VMInstance.PowerState := BasicServer.PowerState server;
           VMInstance.AvailabilityZone := "";
           VMInstance.Created := BasicServer.Created server;
           VMInstance.Updated := BasicServer.Updated server |} in
      ret (Ok vmInstance).

Definition ListVMInstances (participant : Participant.t) (token : string)
    : M (result (list VMInstance.t)) :=
  let url := Participant.OpenStackEndpoint participant +:+ "/v2.1/servers/detail" in
  let? req := http_NewRequest "GET" url None
    else err => "HTTP 요청 생성 실패: " +:+ err in
  let req := http.Request_SetHeader req "X-Auth-Token" token in
  let? resp := s_client_Do req
    else err => "VM 목록 조회 실패: " +:+ err in
  if negb (http.StatusCode resp =? http.StatusOK)
  then ret (Err ("VM 목록 조회 실패: HTTP " +:+ fmt_d (http.StatusCode resp)))
  else
    let? body := io_ReadAll resp
      else err => "응답 읽기 실패: " +:+ err in
    let? response := json_Unmarshal VMListResponse.decode VMListResponse.zero body
      else err => "응답 파싱 실패: " +:+ err in
    ret (Ok (VMListResponse.Servers response)).

(** The constants [75.5], [82.3] and [45.8] of the monitoring stub, as the
    compiler rounds them to binary64: the nearest value to the decimal
    fraction, obtained here by one correctly rounded division. *)
Definition float64_of_ratio (num den : Z) : spec_float :=
  SFdiv 53 1024 (binary_normalize 53 1024 num 0 false) (binary_normalize 53 1024 den 0 false).

Definition GetVMMonitoringInfo (instanceID : string) : M (result VMMonitoringInfo.t) :=
  now <- time_Now ;;
  ret (Ok {| VMMonitoringInfo.InstanceID := instanceID;
             VMMonitoringInfo.CPUUsage := float64_of_ratio 755 10;
             VMMonitoringInfo.MemoryUsage := float64_of_ratio 823 10;
             VMMonitoringInfo.DiskUsage := float64_of_ratio 458 10;
             VMMonitoringInfo.NetworkInBytes := 1024000;
             VMMonitoringInfo.NetworkOutBytes := 2048000;
             VMMonitoringInfo.LastUpdated := now |}).

Definition MonitorSpecificVM (participant : Participant.t) (vm : VirtualMachine.t)
    : M (result VMMonitoringInfo.t) :=
  GetVMMonitoringInfo (VirtualMachine.InstanceID vm).

Definition HealthCheckSpecificVM (participant : Participant.t) (vm : VirtualMachine.t)
    : M (result VMHealthCheckResult.t) :=
  startTime <- time_Now ;;
  r <- GetAuthToken participant ;;
  match r with
  | Err err =>
      checkedAt <- time_Now ;;
      elapsed <- time_Since startTime ;;
      ret (Ok {| VMHealthCheckResult.Healthy := false;
                 VMHealthCheckResult.Status := "ERROR";
                 VMHealthCheckResult.Message := "인증 실패: " +:+ err;
                 VMHealthCheckResult.CheckedAt := checkedAt;
                 VMHealthCheckResult.ResponseTime := Milliseconds elapsed |})
  | Ok token =>
      r <- GetVMInstance vm participant token ;;
      match r with
      | Err err =>
          checkedAt <- time_Now ;;
          elapsed <- time_Since startTime ;;
          ret (Ok {| VMHealthCheckResult.Healthy := false;
                     VMHealthCheckResult.Status := "ERROR";
                     VMHealthCheckResult.Message := "VM 조회 실패: " +:+ err;
                     VMHealthCheckResult.CheckedAt := checkedAt;
                     VMHealthCheckResult.ResponseTime := Milliseconds elapsed |})
      | Ok instance =>
          let healthy := String.eqb (VMInstance.Status instance) "ACTIVE" in
          let status := VMInstance.Status instance in
          let message :=
            if negb healthy
            then "VM 상태가 비정상입니다: " +:+ VMInstance.Status instance
            else "VM이 정상적으로 동작 중입니다" in
          checkedAt <- time_Now ;;
          elapsed <- time_Since startTime ;;
          ret (Ok {| VMHealthCheckResult.Healthy := healthy;
                     VMHealthCheckResult.Status := status;
                     VMHealthCheckResult.Message := message;
                     VMHealthCheckResult.CheckedAt := checkedAt;
                     VMHealthCheckResult.ResponseTime := Milliseconds elapsed |})
      end
  end.

Definition AssignFederatedLearningTaskSpecific (participant : Participant.t)
    (vm : VirtualMachine.t) (taskID : string) : M (result unit) :=
  let? token := GetAuthToken participant
    else err => "인증 실패: " +:+ err in
  let? instance := GetVMInstance vm participant token
    else err => "VM 상태 확인 실패: " +:+ err in
  if negb (String.eqb (VMInstance.Status instance) "ACTIVE")
  then ret (Err ("VM이 활성 상태가 아닙니다: " +:+ VMInstance.Status instance))
  else ret (Ok tt).

(** The status code of the response is not looked at, and the error of
    [io.ReadAll] is dropped: whatever was read is decoded. *)
Definition GetVMRuntimeStatus (participant : Participant.t) (instanceID : string)
    : M (result VMRuntimeInfo.t) :=
  let? token := GetAuthToken participant
    else err => "인증 실패: " +:+ err in
  let url := Participant.OpenStackEndpoint participant +:+ "/compute/v2.1/servers/"
             +:+ instanceID in
  let? req := http_NewRequest "GET" url None
    else err => "HTTP 요청 생성 실패: " +:+ err in
  let req := http.Request_SetHeader req "X-Auth-Token" token in
  let? resp := s_client_Do req
    else err => "VM 상태 조회 실패: " +:+ err in
  let body := http.Body resp in
  let? response := json_Unmarshal RuntimeResponse.decode RuntimeResponse.zero body
    else err => "응답 파싱 실패: " +:+ err in
  lastChecked <- time_Now ;;
  ret (Ok {| VMRuntimeInfo.InstanceID := instanceID;
             VMRuntimeInfo.Status := RuntimeServer.Status (RuntimeResponse.Server response);
             VMRuntimeInfo.PowerState := RuntimeServer.PowerState (RuntimeResponse.Server response);
             VMRuntimeInfo.LastChecked := lastChecked |}).

(** ** A scanner and an environment to run the service on

    The properties below hold for every environment.  To evaluate the
    service on concrete inputs, here is a scanner for JSON texts (UTF-8
    input is taken as it is) and a way to script a server. *)

Module JsonText.

Definition dquote : ascii := ascii_of_N 34.

(** Texts are written with apostrophes where JSON has quotation marks. *)
Fixpoint dq (s : string) : string :=
  match s with
  | EmptyString => EmptyString
  | String c s' => String (if Ascii.eqb c "'"%char then dquote else c) (dq s')
  end.

Definition is_ws (c : ascii) : bool :=
  let n := N_of_ascii c in ((n =? 32) || (n =? 9) || (n =? 10) || (n =? 13))%N.

Definition is_digit (c : ascii) : bool :=
  let n := N_of_ascii c in ((48 <=? n) && (n <=? 57))%N.

Fixpoint skip_ws (s : string) : string :=
  match s with
  | String c s' => if is_ws c then skip_ws s' else s
  | EmptyString => s
  end.

(** A string literal is read as a list of bytes and [\u] escapes, which
    are then put together (surrogate pairs joined, lone surrogates
    replaced by U+FFFD) and written in UTF-8. *)
Inductive unit16 : Type :=
| Byte (c : ascii)
| Esc (code : N).

Definition simple_escape (c : ascii) : option ascii :=
  match c with
  | "\"%char => Some "\"%char
  | "/"%char => Some "/"%char
  | "b"%char => Some (ascii_of_N 8)
  | "f"%char => Some (ascii_of_N 12)
  | "n"%char => Some (ascii_of_N 10)
  | "r"%char => Some (ascii_of_N 13)
  | "t"%char => Some (ascii_of_N 9)
  | _ => if Ascii.eqb c dquote then Some dquote else None
  end.

Definition hex_digit (c : ascii) : option N :=
  let n := N_of_ascii c in
  if ((48 <=? n) && (n <=? 57))%N then Some (n - 48)%N
  else if ((65 <=? n) && (n <=? 70))%N then Some (n - 55)%N
  else if ((97 <=? n) && (n <=? 102))%N then Some (n - 87)%N
  else None.

Definition hex4 (a b c d : ascii) : option N :=
  match hex_digit a, hex_digit b, hex_digit c, hex_digit d with
  | Some x, Some y, Some z, Some w => Some (((x * 16 + y) * 16 + z) * 16 + w)%N
  | _, _, _, _ => None
  end.

Fixpoint scan_units (s : string) (acc : list unit16) : option (list unit16 * string) :=
  match s with
  | EmptyString => None
  | String c r =>
      if Ascii.eqb c dquote then Some (acc, r)
      else if (N_of_ascii c <? 32)%N then None
      else if Ascii.eqb c "\"%char then
        match r with
        | String e r1 =>
            match simple_escape e with
            | Some b => scan_units r1 (acc ++ [Byte b])
            | None =>
                if Ascii.eqb e "u"%char then
                  match r1 with
                  | String h1 (String h2 (String h3 (String h4 r2))) =>
                      match hex4 h1 h2 h3 h4 with
                      | Some n => scan_units r2 (acc ++ [Esc n])
                      | None => None
                      end
                  | _ => None
                  end
                else None
            end
        | EmptyString => None
        end
      else scan_units r (acc ++ [Byte c])
  end.

Definition utf8 (n : N) : string :=
  if (n <? 128)%N then String (ascii_of_N n) ""
  else if (n <? 2048)%N then
    String (ascii_of_N (192 + n / 64)) (String (ascii_of_N (128 + n mod 64)) "")
  else if (n <? 65536)%N then
    String (ascii_of_N (224 + n / 4096))
      (String (ascii_of_N (128 + (n / 64) mod 64))
         (String (ascii_of_N (128 + n mod 64)) ""))
  else
    String (ascii_of_N (240 + n / 262144))
      (String (ascii_of_N (128 + (n / 4096) mod 64))
         (String (ascii_of_N (128 + (n / 64) mod 64))
            (String (ascii_of_N (128 + n mod 64)) ""))).

Definition is_high (n : N) : bool := ((55296 <=? n) && (n <? 56320))%N.
Definition is_low (n : N) : bool := ((56320 <=? n) && (n <? 57344))%N.

Fixpoint units_to_string (us : list unit16) : string :=
  match us with
  | [] => ""
  | Byte c :: r => String c (units_to_string r)
  | Esc n :: r =>
      if is_high n then
        match r with
        | Esc lo :: r' =>
            if is_low lo
            then utf8 (65536 + (n - 55296) * 1024 + (lo - 56320)) +:+ units_to_string r'
            else utf8 65533 +:+ units_to_string r
        | _ => utf8 65533 +:+ units_to_string r
        end
      else if is_low n then utf8 65533 +:+ units_to_string r
      else utf8 n +:+ units_to_string r
  end.

(** The text after an opening quotation mark. *)
Definition scan_string (s : string) : option (string * string) :=
  match scan_units s [] with
  | Some (us, r) => Some (units_to_string us, r)
  | None => None
  end.

(** Number literals: an optional minus sign; a zero, or digits that do
    not start with a zero; an optional fraction; an optional exponent. *)
Fixpoint take_digits (s : string) : string * string :=
  match s with
  | String c r =>
      if is_digit c then let (d, r') := take_digits r in (String c d, r') else ("", s)
  | EmptyString => ("", s)
  end.

Definition scan_number (s : string) : option (string * string) :=
  let (sign, s1) :=
    match s with
    | String "-"%char r => ("-", r)
    | _ => ("", s)
    end in
  let (int, s2) := take_digits s1 in
  let int_ok :=
    match int with
    | EmptyString => false
    | String "0"%char (String _ _) => false
    | _ => true
    end in
  if negb int_ok then None else
  let frac :=
    match s2 with
    | String "."%char r =>
        let (d, r') := take_digits r in
        match d with
        | EmptyString => None
        | _ => Some ("." +:+ d, r')
        end
    | _ => Some ("", s2)
    end in
  match frac with
  | None => None
  | Some (f, s3) =>
      match s3 with
      | String e r =>
          if Ascii.eqb e "e"%char || Ascii.eqb e "E"%char then
            let (esign, r1) :=
              match r with
              | String "+"%char r' => ("+", r')
              | String "-"%char r' => ("-", r')
              | _ => ("", r)
              end in
            let (d, r2) := take_digits r1 in
            match d with
            | EmptyString => None
            | _ => Some (sign +:+ int +:+ f +:+ String e esign +:+ d, r2)
            end
          else Some (sign +:+ int +:+ f, s3)
      | EmptyString => Some (sign +:+ int +:+ f, s3)
      end
  end.

Definition strip (p s : string) : option string :=
  if String.prefix p s
  then Some (String.substring (String.length p) (String.length s - String.length p) s)
  else None.

(** Values, by recursive descent; [fuel] bounds the nesting and the
    number of elements, and the length of the text is always enough. *)
Fixpoint scan_value (fuel : nat) (s : string) : option (Json.value * string) :=
  match fuel with
  | O => None
  | S fuel' =>
      match skip_ws s with
      | EmptyString => None
      | String c r =>
          if Ascii.eqb c "{"%char then
            match skip_ws r with
            | String "}"%char r' => Some (Json.Object [], r')
            | _ => scan_members fuel' r []
            end
          else if Ascii.eqb c "["%char then
            match skip_ws r with
            | String "]"%char r' => Some (Json.Array [], r')
            | _ => scan_elements fuel' r []
            end
          else if Ascii.eqb c dquote then
            match scan_string r with
            | Some (str, r') => Some (Json.String str, r')
            | None => None
            end
          else if Ascii.eqb c "t"%char then
            option_map (fun r' => (Json.Bool true, r')) (strip "rue" r)
          else if Ascii.eqb c "f"%char then
            option_map (fun r' => (Json.Bool false, r')) (strip "alse" r)
          else if Ascii.eqb c "n"%char then
            option_map (fun r' => (Json.Null, r')) (strip "ull" r)
          else
            match scan_number (String c r) with
            | Some (lit, r') => Some (Json.Number lit, r')
            | None => None
            end
      end
  end
with scan_members (fuel : nat) (s : string) (acc : list (string * Json.value))
    : option (Json.value * string) :=
  match fuel with
  | O => None
  | S fuel' =>
      match skip_ws s with
      | String c r =>
          if Ascii.eqb c dquote then
            match scan_string r with
            | Some (key, r1) =>
                match skip_ws r1 with
                | String ":"%char r2 =>
                    match scan_value fuel' r2 with
                    | Some (v, r3) =>
                        match skip_ws r3 with
                        | String ","%char r4 => scan_members fuel' r4 (acc ++ [(key, v)])
                        | String "}"%char r4 => Some (Json.Object (acc ++ [(key, v)]), r4)
                        | _ => None
                        end
                    | None => None
                    end
                | _ => None
                end
            | None => None
            end
          else None
      | EmptyString => None
      end
  end
with scan_elements (fuel : nat) (s : string) (acc : list Json.value)
    : option (Json.value * string) :=
  match fuel with
  | O => None
  | S fuel' =>
      match scan_value fuel' s with
      | Some (v, r1) =>
          match skip_ws r1 with
          | String ","%char r2 => scan_elements fuel' r2 (acc ++ [v])
          | String "]"%char r2 => Some (Json.Array (acc ++ [v]), r2)
          | _ => None
          end
      | None => None
      end
  end.

Definition scan (s : string) : result Json.value :=
  match skip_ws s with
  | EmptyString => Err "unexpected end of JSON input"
  | _ =>
      match scan_value (S (String.length s)) s with
      | Some (v, r) =>
          match skip_ws r with
          | EmptyString => Ok v
          | _ => Err "invalid character after top-level value"
          end
      | None => Err "invalid JSON text"
      end
  end.

End JsonText.

(** A scripted server: the answer depends on method and URL alone, and an
    address that is not in the script refuses the connection.  Every URL is
    accepted and the clock advances by one millisecond per effect. *)
Module Sample.

Definition script : Type := list (string * string * result http.Response).

Definition serve (sc : script) (req : http.Request) : result http.Response :=
  match List.find (fun e => String.eqb (fst (fst e)) (http.Method req)
                            && String.eqb (snd (fst e)) (http.URL req)) sc with
  | Some e => snd e
  | None => Err "dial tcp: connect: connection refused"
  end.

Definition env (sc : script) : Env :=
  {| url_Parse := fun _ => None;
     json_scan := JsonText.scan;
     client_Do := fun _ req => serve sc req;
     clock := fun h => 1000000 * Z.of_nat (length h) |}.

Definition response (status : Z) (text : string) : http.Response :=
  http.mkResponse status ∅ (JsonText.dq text) None.

Definition json (status : Z) (text : string) : result http.Response :=
  Ok (response status text).

(** The answer of the identity service to a valid credential. *)
Definition token_created (token : string) : result http.Response :=
  Ok (http.mkResponse 201 (http.Header_Set ∅ "X-Subject-Token" token) "" None).

Definition participant : Participant.t :=
  {| Participant.OpenStackEndpoint := "http://controller";
     Participant.OpenStackApplicationCredentialID := "app-id";
     Participant.OpenStackApplicationCredentialSecret := "app-secret" |}.

Definition auth_ok : string * string * result http.Response :=
  ("POST", "http://controller/identity/v3/auth/tokens", token_created "abc").

(** A list of two servers; the flavor of the first is known, the lookup of
    the second is answered with 404. *)
Definition two_servers_text : string :=
  "{'servers': [
     {'id': 'i-1', 'name': 'trainer', 'status': 'ACTIVE', 'flavor': {'id': 'f1'},
      'addresses': {'private': [{'addr': '10.0.0.5', 'OS-EXT-IPS:type': 'fixed'}]},
      'OS-EXT-STS:power_state': 1, 'OS-EXT-AZ:availability_zone': 'nova',
      'created': '2025-01-01T00:00:00Z', 'updated': '2025-01-02T00:00:00Z'},
     {'id': 'i-2', 'name': 'spare', 'status': 'SHUTOFF', 'flavor': {'id': 'f2'},
      'OS-EXT-STS:power_state': 4}]}".

Definition server_1 : BasicServer.t :=
  BasicServer.mk "i-1" "trainer" "ACTIVE" (FlavorRef.mk "f1")
    {[ "private" := [Address.mk "10.0.0.5" "fixed"] ]} 1 "nova"
    "2025-01-01T00:00:00Z" "2025-01-02T00:00:00Z".

Definition server_2 : BasicServer.t :=
  BasicServer.mk "i-2" "spare" "SHUTOFF" (FlavorRef.mk "f2") ∅ 4 "" "" "".

Definition two_servers : script :=
  [ auth_ok;
    ("GET", "http://controller/compute/v2.1/servers/detail", json 200 two_servers_text);
    ("GET", "http://controller/compute/v2.1/flavors/f1",
     json 200 "{'flavor': {'id': 'f1', 'name': 'm1.small', 'vcpus': 1, 'ram': 2048, 'disk': 20}}");
    ("GET", "http://controller/compute/v2.1/flavors/f2",
     json 404 "{'itemNotFound': {'message': 'Flavor f2 could not be found.', 'code': 404}}") ].

(** One server, fetched by its id, in availability zone [nova]. *)
Definition server_1_text : string :=
  "{'server':
     {'id': 'i-1', 'name': 'trainer', 'status': 'ACTIVE', 'flavor': {'id': 'f1'},
      'addresses': {'private': [{'addr': '10.0.0.5', 'OS-EXT-IPS:type': 'fixed'}]},
      'OS-EXT-STS:power_state': 1, 'OS-EXT-AZ:availability_zone': 'nova',
      'created': '2025-01-01T00:00:00Z', 'updated': '2025-01-02T00:00:00Z'}}".

Definition flavor_1 : FlavorDetails.t := FlavorDetails.mk "f1" "m1.small" 1 2048 20.

Definition one_server : script :=
  [ auth_ok;
    ("GET", "http://controller/compute/v2.1/servers/i-1", json 200 server_1_text);
    ("GET", "http://controller/compute/v2.1/flavors/f1",
     json 200 "{'flavor': {'id': 'f1', 'name': 'm1.small', 'vcpus': 1, 'ram': 2048, 'disk': 20}}") ].

(** An instance that does not exist: the compute service answers 404 with
    a JSON body of its own. *)
Definition not_found_text : string :=
  "{'itemNotFound': {'message': 'Instance i-9 could not be found.', 'code': 404}}".

Definition no_such_server : script :=
  [ auth_ok;
    ("GET", "http://controller/compute/v2.1/servers/i-9", json 404 not_found_text) ].

(** The same instance, shut off. *)
Definition stopped_server : script :=
  [ auth_ok;
    ("GET", "http://controller/compute/v2.1/servers/i-1",
     json 200 "{'server': {'id': 'i-1', 'status': 'SHUTOFF', 'flavor': {'id': 'f1'}}}") ].

End Sample.

(** ** The requests of the service

    What each operation sends, as section 6 of the specification lists the
    interfaces: method, URL under the participant's endpoint, headers, body. *)

Definition token_url (p : Participant.t) : string :=
  Participant.OpenStackEndpoint p +:+ "/identity/v3/auth/tokens".

Definition token_body (p : Participant.t) : Json.value :=
  Json.Object
    [("auth", Json.Object
       [("identity", Json.Object
          [("methods", Json.Array [Json.String "application_credential"]);
           ("application_credential", Json.Object
              [("id", Json.String (Participant.OpenStackApplicationCredentialID p));
               ("secret", Json.String (Participant.OpenStackApplicationCredentialSecret p))])])])].

Definition token_request (p : Participant.t) : http.Request :=
  {| http.Method := "POST";
     http.URL := token_url p;
     http.ReqHeader := http.Header_Set ∅ "Content-Type" "application/json";
     http.ReqBody := Some (token_body p) |}.

Definition detail_url (p : Participant.t) : string :=
  Participant.OpenStackEndpoint p +:+ "/compute/v2.1/servers/detail".

Definition server_url (p : Participant.t) (id : string) : string :=
  Participant.OpenStackEndpoint p +:+ "/compute/v2.1/servers/" +:+ id.

Definition flavor_url (p : Participant.t) (id : string) : string :=
  Participant.OpenStackEndpoint p +:+ "/compute/v2.1/flavors/" +:+ id.

(** A [GET] that carries the token and nothing else. *)
Definition get_request (url token : string) : http.Request :=
  {| http.Method := "GET";
     http.URL := url;
     http.ReqHeader := http.Header_Set ∅ "X-Auth-Token" token;
     http.ReqBody := None |}.

(** A [GET] that carries the token and asks for JSON. *)
Definition get_json_request (url token : string) : http.Request :=
  {| http.Method := "GET";
     http.URL := url;
     http.ReqHeader :=
       http.Header_Set (http.Header_Set ∅ "X-Auth-Token" token) "Accept" "application/json";
     http.ReqBody := None |}.

(** The effects of one exchange: the request is built and, when its URL is
    accepted, sent. *)
Definition exchange (env : Env) (req : http.Request) : list Event :=
  match url_Parse env (http.URL req) with
  | Some _ => [EvNewRequest (http.Method req) (http.URL req)]
  | None => [EvNewRequest (http.Method req) (http.URL req); EvDo req]
  end.

(** The descriptor of a decoded server with a given flavor: every field of
    the server but the availability zone. *)
Definition descriptor (server : BasicServer.t) (flavor : FlavorDetails.t) : VMInstance.t :=
  {| VMInstance.ID := BasicServer.ID server;
     VMInstance.Name := BasicServer.Name server;
     VMInstance.Status := BasicServer.Status server;
     VMInstance.Flavor := flavor;
     VMInstance.Addresses := BasicServer.Addresses server;
     VMInstance.PowerState := BasicServer.PowerState server;
     VMInstance.AvailabilityZone := "";
     VMInstance.Created := BasicServer.Created server;
     VMInstance.Updated := BasicServer.Updated server |}.

(** The flavor an instance ends up with, given the outcome of its lookup. *)
Definition flavor_or_unknown (server : BasicServer.t) (r : result FlavorDetails.t)
    : FlavorDetails.t :=
  match r with
  | Ok f => f
  | Err _ => unknown_flavor (FlavorRef.ID (BasicServer.Flavor server))
  end.

(** The outcomes of the flavor lookups for a list of servers, made one
    after the other from history [h] on. *)
Fixpoint flavor_lookups (p : Participant.t) (token : string) (env : Env)
    (h : list Event) (servers : list BasicServer.t) : list (result FlavorDetails.t) :=
  match servers with
  | [] => []
  | server :: rest =>
      let (r, h') := GetFlavorDetails p token (FlavorRef.ID (BasicServer.Flavor server)) env h in
      r :: flavor_lookups p token env h' rest
  end.

(** The descriptors of a list of servers, given the outcomes of their
    lookups, position by position. *)
Definition descriptors (servers : list BasicServer.t)
    (lookups : list (result FlavorDetails.t)) : list VMInstance.t :=
  zip_with (fun server r => descriptor server (flavor_or_unknown server r)) servers lookups.

(** The request that looks up the flavor of a server. *)
Definition flavor_request (p : Participant.t) (token : string) (server : BasicServer.t)
    : http.Request :=
  get_json_request (flavor_url p (FlavorRef.ID (BasicServer.Flavor server))) token.

(** The address [ListVMInstances] asks: the endpoint followed by
    [/v2.1/servers/detail]. *)
Definition plain_list_url (p : Participant.t) : string :=
  Participant.OpenStackEndpoint p +:+ "/v2.1/servers/detail".

(** The list was fetched and decoded: a token was obtained, the detail
    request was answered with status 200 and a readable body, and the body
    decoded into [basicResponse]. *)
Definition listed (env : Env) (h h1 : list Event) (p : Participant.t) (token : string)
    (resp : http.Response) (basicResponse : BasicListResponse.t) : Prop :=
  GetAuthToken p env h = (Ok token, h1) /\
  url_Parse env (detail_url p) = None /\
  client_Do env (h1 ++ [EvNewRequest "GET" (detail_url p)])
    (get_json_request (detail_url p) token) = Ok resp /\
  http.BodyErr resp = None /\
  http.StatusCode resp = 200 /\
  unmarshal env BasicListResponse.decode BasicListResponse.zero (http.Body resp)
    = Ok basicResponse.

(** The number of requests handed to the client in a list of effects. *)
Fixpoint sends (t : list Event) : nat :=
  match t with
  | [] => 0%nat
  | EvDo _ :: t' => S (sends t')
  | _ :: t' => sends t'
  end.

(** A clock that never runs backwards as the history grows. *)
Definition clock_monotone (env : Env) : Prop :=
  forall h t : list Event, clock env h <= clock env (h ++ t).

(** A member name that selects no field tagged [tag]: it differs from the
    tag even under case folding. *)
Definition misses (tag key : string) : Prop :=
  Json.fold_name key <> Json.fold_name tag.

(** An answer of the compute service with status 500 and a body that is
    not JSON, and a listing it breaks. *)
Definition Sample_broken_listing : Sample.script :=
  [ Sample.auth_ok;
    ("GET", "http://controller/compute/v2.1/servers/detail",
     Ok (http.mkResponse 500 ∅ "upstream unavailable" None)) ].

(** An accepted answer to the listing request that has no [servers]
    member: the member is spelled otherwise. *)
Definition Sample_odd_listing : Sample.script :=
  [ Sample.auth_ok;
    ("GET", "http://controller/compute/v2.1/servers/detail",
     Sample.json 200 "{'Server': [{'id': 'i-1'}], 'count': 1}") ].

(** The result of the probe from what authentication and fetch gave. *)
Definition health_result (r : result VMInstance.t) (checkedAt elapsed : Z)
    : VMHealthCheckResult.t :=
  match r with
  | Err err =>
      {| VMHealthCheckResult.Healthy := false;
         VMHealthCheckResult.Status := "ERROR";
         VMHealthCheckResult.Message := err;
         VMHealthCheckResult.CheckedAt := checkedAt;
         VMHealthCheckResult.ResponseTime := Milliseconds elapsed |}
  | Ok instance =>
      {| VMHealthCheckResult.Healthy := String.eqb (VMInstance.Status instance) "ACTIVE";
         VMHealthCheckResult.Status := VMInstance.Status instance;
         VMHealthCheckResult.Message :=
           if String.eqb (VMInstance.Status instance) "ACTIVE"
           then "VM이 정상적으로 동작 중입니다"
           else "VM 상태가 비정상입니다: " +:+ VMInstance.Status instance;
         VMHealthCheckResult.CheckedAt := checkedAt;
         VMHealthCheckResult.ResponseTime := Milliseconds elapsed |}
  end.

(** Authentication followed by the fetch of one instance, as the probe and
    the task assignment both begin. *)
Definition token_then_instance (p : Participant.t) (vm : VirtualMachine.t)
    (env : Env) (h : list Event) : result VMInstance.t * list Event :=
  match GetAuthToken p env h with
  | (Err err, h1) => (Err ("인증 실패: " +:+ err), h1)
  | (Ok token, h1) =>
      match GetVMInstance vm p token env h1 with
      | (Err err, h2) => (Err ("VM 조회 실패: " +:+ err), h2)
      | (Ok instance, h2) => (Ok instance, h2)
      end
  end.

(** A decoded server and a decoded runtime state that agree on status and
    power state. *)
Definition same_state (b : BasicServer.t) (r : RuntimeServer.t) : Prop :=
  RuntimeServer.Status r = BasicServer.Status b /\
  RuntimeServer.PowerState r = BasicServer.PowerState b.

(** ** Properties *)

(** *** Stepping through the monad *)

Ltac go :=
  repeat progress
    (unfold bind, ret, emit, ask, http_NewRequest, s_client_Do, io_ReadAll,
       json_Unmarshal, time_Since, time_Now, run, history;
     cbv beta iota zeta).

Lemma eqb_empty_false (s : string) : s <> "" -> String.eqb s "" = false.
Proof. intros Hs. apply String.eqb_neq. exact Hs. Qed.

(** *** Authentication *)

(** Every outcome of [GetAuthToken] when the credential is complete: one
    exchange with the identity service, then the verdict on the answer. *)
Lemma GetAuthToken_complete (env : Env) (h : list Event) (p : Participant.t) :
  Participant.OpenStackApplicationCredentialID p <> "" ->
  Participant.OpenStackApplicationCredentialSecret p <> "" ->
  GetAuthToken p env h =
    ( match url_Parse env (token_url p) with
      | Some e => Err ("HTTP 요청 생성 실패: " +:+ e)
      | None =>
          match client_Do env (h ++ [EvNewRequest "POST" (token_url p)]) (token_request p) with
          | Err e => Err ("인증 요청 실패: " +:+ e)
          | Ok resp =>
              if negb (http.StatusCode resp =? 201)
              then Err ("인증 실패: HTTP " +:+ fmt_d (http.StatusCode resp))
              else if String.eqb (http.Header_Get (http.RespHeader resp) "X-Subject-Token") ""
                   then Err "인증 토큰을 받지 못했습니다"
                   else Ok (http.Header_Get (http.RespHeader resp) "X-Subject-Token")
          end
      end,
      h ++ exchange env (token_request p) ).
Proof.
  intros Hid Hsecret. unfold GetAuthToken, exchange.
  rewrite (eqb_empty_false _ Hid), (eqb_empty_false _ Hsecret).
  cbn [negb andb]. go.
  change (http.URL (token_request p)) with (token_url p).
  change (Participant.OpenStackEndpoint p +:+ "/identity/v3/auth/tokens") with (token_url p).
  destruct (url_Parse env (token_url p)) as [e|]; go; [reflexivity|].
  change (http.Request_SetHeader _ _ _) with (token_request p).
  destruct (client_Do env _ (token_request p)) as [resp|e].
  - unfold http.StatusCreated. rewrite <- app_assoc. cbn [app http.Method token_request].
    destruct (negb (http.StatusCode resp =? 201)); [reflexivity|].
    destruct (String.eqb _ ""); reflexivity.
  - rewrite <- app_assoc. reflexivity.
Qed.

(** C3: when the application-credential ID or secret is empty,
    [GetAuthToken] fails with the configuration error and the history is
    left as it was: no request is built and none is sent. *)
Theorem GetAuthToken_empty_credential (env : Env) (h : list Event) (p : Participant.t) :
  Participant.OpenStackApplicationCredentialID p = "" \/
  Participant.OpenStackApplicationCredentialSecret p = "" ->
  GetAuthToken p env h = (Err "application Credential 인증 정보가 필요합니다", h).
Proof.
  intros [H | H]; unfold GetAuthToken; rewrite H.
  - reflexivity.
  - rewrite andb_comm. reflexivity.
Qed.

Lemma GetAuthToken_empty_credential_witness :
  GetAuthToken (Participant.mk "http://controller" "app-id" "")
    (Sample.env [Sample.auth_ok]) [] =
  (Err "application Credential 인증 정보가 필요합니다", []).
Proof.
  apply GetAuthToken_empty_credential. right. reflexivity.
Defined.

(** C6: with a complete credential, [GetAuthToken] returns a token exactly
    when the identity service answered the token request with status 201
    and a non-empty [X-Subject-Token] header, and the token returned is the
    value of that header; in every other case it returns an error. *)
Theorem GetAuthToken_success_iff (env : Env) (h : list Event) (p : Participant.t) :
  Participant.OpenStackApplicationCredentialID p <> "" ->
  Participant.OpenStackApplicationCredentialSecret p <> "" ->
  (forall token : string,
     run (GetAuthToken p) env h = Ok token <->
     exists resp : http.Response,
       url_Parse env (token_url p) = None /\
       client_Do env (h ++ [EvNewRequest "POST" (token_url p)]) (token_request p) = Ok resp /\
       http.StatusCode resp = 201 /\
       http.Header_Get (http.RespHeader resp) "X-Subject-Token" = token /\
       token <> "") /\
  (forall resp : http.Response,
     url_Parse env (token_url p) = None ->
     client_Do env (h ++ [EvNewRequest "POST" (token_url p)]) (token_request p) = Ok resp ->
     http.StatusCode resp <> 201 \/
     http.Header_Get (http.RespHeader resp) "X-Subject-Token" = "" ->
     exists e : error, run (GetAuthToken p) env h = Err e).
Proof.
  intros Hid Hsecret. unfold run. rewrite (GetAuthToken_complete env h p Hid Hsecret).
  cbn [fst]. split.
  - intros token. split.
    + destruct (url_Parse env (token_url p)) as [e|]; [discriminate|].
      destruct (client_Do env _ (token_request p)) as [resp|e]; [|discriminate].
      destruct (Z.eqb_spec (http.StatusCode resp) 201) as [Hst|Hst]; cbn [negb];
        [|discriminate].
      destruct (String.eqb_spec (http.Header_Get (http.RespHeader resp) "X-Subject-Token") "")
        as [Htok|Htok]; [discriminate|].
      intros [= <-]. exists resp. auto.
    + intros (resp & -> & -> & Hst & Hget & Htok).
      rewrite Hst. cbn [Z.eqb Pos.eqb negb]. subst token.
      rewrite (eqb_empty_false _ Htok). reflexivity.
  - intros resp -> -> [Hst | Hget].
    + apply Z.eqb_neq in Hst. rewrite Hst. cbn [negb]. eauto.
    + destruct (negb _); [eauto|]. rewrite Hget. cbn. eauto.
Qed.

Lemma GetAuthToken_success_iff_witness :
  (forall token : string,
     run (GetAuthToken Sample.participant) (Sample.env [Sample.auth_ok]) [] = Ok token <->
     exists resp : http.Response,
       url_Parse (Sample.env [Sample.auth_ok]) (token_url Sample.participant) = None /\
       client_Do (Sample.env [Sample.auth_ok])
         ([] ++ [EvNewRequest "POST" (token_url Sample.participant)])
         (token_request Sample.participant) = Ok resp /\
       http.StatusCode resp = 201 /\
       http.Header_Get (http.RespHeader resp) "X-Subject-Token" = token /\
       token <> "") /\
  run (GetAuthToken Sample.participant) (Sample.env [Sample.auth_ok]) [] = Ok "abc".
Proof.
  split.
  - apply (GetAuthToken_success_iff (Sample.env [Sample.auth_ok]) [] Sample.participant);
      discriminate.
  - vm_compute. reflexivity.
Defined.

(** *** Flavor lookup *)

(** Every outcome of [GetFlavorDetails]: one exchange, then the verdict on
    status, body and JSON. *)
Lemma GetFlavorDetails_complete (env : Env) (h : list Event) (p : Participant.t)
    (token flavorID : string) :
  GetFlavorDetails p token flavorID env h =
    ( match url_Parse env (flavor_url p flavorID) with
      | Some e => Err ("HTTP 요청 생성 실패: " +:+ e)
      | None =>
          match client_Do env (h ++ [EvNewRequest "GET" (flavor_url p flavorID)])
                  (get_json_request (flavor_url p flavorID) token) with
          | Err e => Err ("Flavor 정보 조회 실패: " +:+ e)
          | Ok resp =>
              if negb (http.StatusCode resp =? 200)
              then Err ("Flavor 정보 조회 실패: HTTP " +:+ fmt_d (http.StatusCode resp))
              else
                match http.BodyErr resp with
                | Some e => Err ("응답 읽기 실패: " +:+ e)
                | None =>
                    match unmarshal env FlavorResponse.decode FlavorResponse.zero
                            (http.Body resp) with
                    | Ok response => Ok (FlavorResponse.Flavor response)
                    | Err e => Err ("응답 파싱 실패: " +:+ e)
                    end
                end
          end
      end,
      h ++ exchange env (get_json_request (flavor_url p flavorID) token) ).
Proof.
  unfold GetFlavorDetails, exchange. go.
  change (http.URL (get_json_request (flavor_url p flavorID) token))
    with (flavor_url p flavorID).
  change (Participant.OpenStackEndpoint p +:+ "/compute/v2.1/flavors/" +:+ flavorID)
    with (flavor_url p flavorID).
  destruct (url_Parse env (flavor_url p flavorID)) as [e|]; go; [reflexivity|].
  change (http.Request_SetHeader (http.Request_SetHeader _ _ _) _ _)
    with (get_json_request (flavor_url p flavorID) token).
  rewrite <- app_assoc. cbn [app http.Method get_json_request].
  destruct (client_Do env _ _) as [resp|e]; [|reflexivity].
  unfold http.StatusOK.
  destruct (negb (http.StatusCode resp =? 200)); [reflexivity|].
  destruct (http.BodyErr resp) as [e|]; go; [reflexivity|].
  destruct (unmarshal _ _ _ _); reflexivity.
Qed.

Lemma GetFlavorDetails_history (env : Env) (h : list Event) (p : Participant.t)
    (token flavorID : string) :
  snd (GetFlavorDetails p token flavorID env h) =
  h ++ exchange env (get_json_request (flavor_url p flavorID) token).
Proof. rewrite GetFlavorDetails_complete. reflexivity. Qed.

(** A flavor lookup answered with another status than 200 fails. *)
Lemma GetFlavorDetails_not_200 (env : Env) (h : list Event) (p : Participant.t)
    (token flavorID : string) (resp : http.Response) :
  url_Parse env (flavor_url p flavorID) = None ->
  client_Do env (h ++ [EvNewRequest "GET" (flavor_url p flavorID)])
    (get_json_request (flavor_url p flavorID) token) = Ok resp ->
  http.StatusCode resp <> 200 ->
  run (GetFlavorDetails p token flavorID) env h =
  Err ("Flavor 정보 조회 실패: HTTP " +:+ fmt_d (http.StatusCode resp)).
Proof.
  intros Hurl Hdo Hst. unfold run. rewrite GetFlavorDetails_complete, Hurl, Hdo.
  apply Z.eqb_neq in Hst. rewrite Hst. reflexivity.
Qed.

(** *** Fetching one instance *)

(** Every outcome of [GetVMInstance] for a non-empty instance id. *)
Lemma GetVMInstance_complete (env : Env) (h : list Event) (vm : VirtualMachine.t)
    (p : Participant.t) (token : string) :
  VirtualMachine.InstanceID vm <> "" ->
  let url := server_url p (VirtualMachine.InstanceID vm) in
  let h1 := h ++ exchange env (get_request url token) in
  GetVMInstance vm p token env h =
    match url_Parse env url with
    | Some e => (Err ("HTTP 요청 생성 실패: " +:+ e), h1)
    | None =>
        match client_Do env (h ++ [EvNewRequest "GET" url]) (get_request url token) with
        | Err e => (Err ("VM 정보 조회 실패: " +:+ e), h1)
        | Ok resp =>
            if negb (http.StatusCode resp =? 200)
            then (Err ("VM 정보 조회 실패: HTTP " +:+ fmt_d (http.StatusCode resp)), h1)
            else
              match http.BodyErr resp with
              | Some e => (Err ("응답 읽기 실패: " +:+ e), h1)
              | None =>
                  match unmarshal env BasicResponse.decode BasicResponse.zero
                          (http.Body resp) with
                  | Err e => (Err ("응답 파싱 실패: " +:+ e), h1)
                  | Ok basicResponse =>
                      let server := BasicResponse.Server basicResponse in
                      let (r, h2) :=
                        GetFlavorDetails p token (FlavorRef.ID (BasicServer.Flavor server))
                          env h1 in
                      (Ok (descriptor server (flavor_or_unknown server r)), h2)
                  end
              end
        end
    end.
Proof.
  intros Hid url h1. subst h1. unfold GetVMInstance, exchange.
  rewrite (eqb_empty_false _ Hid). go.
  change (http.URL (get_request url token)) with url.
  change (Participant.OpenStackEndpoint p +:+ "/compute/v2.1/servers/"
          +:+ VirtualMachine.InstanceID vm) with url.
  destruct (url_Parse env url) as [e|]; go; [reflexivity|].
  change (http.Request_SetHeader _ _ _) with (get_request url token).
  rewrite <- app_assoc. cbn [app http.Method get_request].
  destruct (client_Do env _ _) as [resp|e]; [|reflexivity].
  unfold http.StatusOK.
  destruct (negb (http.StatusCode resp =? 200)); [reflexivity|].
  destruct (http.BodyErr resp) as [e|]; go; [reflexivity|].
  destruct (unmarshal _ _ _ _) as [basicResponse|e]; [|reflexivity].
  destruct (GetFlavorDetails p token _ env _) as [[f|e] h2]; reflexivity.
Qed.

(** C10: with an empty instance id, [GetVMInstance] fails at once and the
    history is left as it was, so no request is built or sent; whenever
    the history does grow, the instance id was not empty, and the first
    thing done is to build the request for that instance. *)
Theorem GetVMInstance_requires_instance_id (env : Env) (h : list Event)
    (vm : VirtualMachine.t) (p : Participant.t) (token : string) :
  (VirtualMachine.InstanceID vm = "" ->
   GetVMInstance vm p token env h = (Err "VM 인스턴스 ID가 설정되지 않았습니다", h)) /\
  (history (GetVMInstance vm p token) env h <> h ->
   VirtualMachine.InstanceID vm <> "") /\
  (VirtualMachine.InstanceID vm <> "" ->
   exists rest : list Event,
     history (GetVMInstance vm p token) env h =
     h ++ EvNewRequest "GET" (server_url p (VirtualMachine.InstanceID vm)) :: rest).
Proof.
  assert (Hempty : VirtualMachine.InstanceID vm = "" ->
                   GetVMInstance vm p token env h =
                   (Err "VM 인스턴스 ID가 설정되지 않았습니다", h)).
  { intros H. unfold GetVMInstance. rewrite H. reflexivity. }
  split; [exact Hempty|]. split.
  - intros Hgrow Hid. apply Hgrow. unfold history. rewrite (Hempty Hid). reflexivity.
  - intros Hid. unfold history.
    pose proof (GetVMInstance_complete env h vm p token Hid) as Hc.
    cbv zeta in Hc. rewrite Hc. clear Hc. unfold exchange.
    change (http.URL (get_request ?u token)) with u.
    cbn [http.URL http.Method get_request].
    destruct (url_Parse env _) as [e|]; [eexists; reflexivity|].
    destruct (client_Do env _ _) as [resp|e]; [|eexists; reflexivity].
    destruct (negb _); [eexists; reflexivity|].
    destruct (http.BodyErr resp); [eexists; reflexivity|].
    destruct (unmarshal _ _ _ _); [|eexists; reflexivity].
    match goal with |- context [GetFlavorDetails ?a ?b ?c ?d ?e] =>
      pose proof (GetFlavorDetails_history d e a b c) as Hh;
      destruct (GetFlavorDetails a b c d e) as [r h2] end.
    cbn [snd] in *. subst h2. rewrite <- app_assoc. cbn [app]. eexists; reflexivity.
Qed.

Lemma GetVMInstance_requires_instance_id_witness :
  GetVMInstance (VirtualMachine.mk "") Sample.participant "abc"
    (Sample.env [Sample.auth_ok]) [] =
  (Err "VM 인스턴스 ID가 설정되지 않았습니다", []).
Proof.
  apply (GetVMInstance_requires_instance_id (Sample.env [Sample.auth_ok]) []
           (VirtualMachine.mk "") Sample.participant "abc").
  reflexivity.
Defined.

(** *** Listing with flavors *)

Lemma flavor_lookups_length (p : Participant.t) (token : string) (env : Env)
    (servers : list BasicServer.t) (h : list Event) :
  length (flavor_lookups p token env h servers) = length servers.
Proof.
  revert h. induction servers as [|server rest IH]; intros h; [reflexivity|].
  cbn [flavor_lookups].
  destruct (GetFlavorDetails p token _ env h) as [r h'].
  cbn [length]. rewrite IH. reflexivity.
Qed.

(** The loop of [GetAllVMInstances]: any body that looks one flavor up and
    appends one descriptor yields the descriptors in the order of the
    servers, and its effects are the lookups' exchanges in that order. *)
Lemma for_range_describe (p : Participant.t) (token : string) (env : Env)
    (body : list VMInstance.t -> BasicServer.t -> M (list VMInstance.t)) :
  (forall acc server h,
     body acc server env h =
     let (r, h') :=
       GetFlavorDetails p token (FlavorRef.ID (BasicServer.Flavor server)) env h in
     (acc ++ [descriptor server (flavor_or_unknown server r)], h')) ->
  forall servers acc h,
    for_range servers body acc env h =
    ( acc ++ descriptors servers (flavor_lookups p token env h servers),
      h ++ flat_map (fun server => exchange env (flavor_request p token server)) servers ).
Proof.
  intros Hbody servers. induction servers as [|server rest IH]; intros acc h.
  - cbn. unfold ret, descriptors. cbn. rewrite !app_nil_r. reflexivity.
  - cbn [for_range flavor_lookups flat_map]. unfold bind. rewrite Hbody.
    pose proof (GetFlavorDetails_history env h p token
                  (FlavorRef.ID (BasicServer.Flavor server))) as Hh.
    destruct (GetFlavorDetails p token _ env h) as [r h'].
    cbn [snd] in Hh. subst h'. rewrite IH. unfold descriptors. cbn [zip_with].
    rewrite <- !app_assoc. reflexivity.
Qed.

(** Every outcome of [GetAllVMInstances] once a token was obtained. *)
Lemma GetAllVMInstances_complete (env : Env) (h h1 : list Event) (p : Participant.t)
    (token : string) :
  GetAuthToken p env h = (Ok token, h1) ->
  let req := get_json_request (detail_url p) token in
  let h2 := h1 ++ exchange env req in
  GetAllVMInstances p env h =
    match url_Parse env (detail_url p) with
    | Some e => (Err ("HTTP 요청 생성 실패: " +:+ e), h2)
    | None =>
        match client_Do env (h1 ++ [EvNewRequest "GET" (detail_url p)]) req with
        | Err e => (Err ("VM 목록 조회 실패: " +:+ e), h2)
        | Ok resp =>
            match http.BodyErr resp with
            | Some e => (Err ("응답 읽기 실패: " +:+ e), h2)
            | None =>
                if negb (http.StatusCode resp =? 200)
                then (Err ("VM 목록 조회 실패: HTTP " +:+ fmt_d (http.StatusCode resp)
                           +:+ ", 응답: " +:+ http.Body resp), h2)
                else
                  match unmarshal env BasicListResponse.decode BasicListResponse.zero
                          (http.Body resp) with
                  | Err e => (Err ("응답 파싱 실패: " +:+ e +:+ ", 응답 내용: "
                                   +:+ http.Body resp), h2)
                  | Ok basicResponse =>
                      let servers := BasicListResponse.Servers basicResponse in
                      ( Ok (descriptors servers (flavor_lookups p token env h2 servers)),
                        h2 ++ flat_map (fun server => exchange env (flavor_request p token server))
                                servers )
                  end
            end
        end
    end.
Proof.
  intros Hauth req h2. subst h2. unfold GetAllVMInstances, exchange.
  unfold bind at 1. rewrite Hauth. go.
  change (http.URL req) with (detail_url p).
  change (Participant.OpenStackEndpoint p +:+ "/compute/v2.1/servers/detail")
    with (detail_url p).
  destruct (url_Parse env (detail_url p)) as [e|]; go; [reflexivity|].
  change (http.Request_SetHeader (http.Request_SetHeader _ _ _) _ _) with req.
  rewrite <- app_assoc. cbn [app]. change (http.Method req) with "GET".
  destruct (client_Do env _ req) as [resp|e]; [|reflexivity].
  destruct (http.BodyErr resp) as [e|]; go; [reflexivity|].
  unfold http.StatusOK.
  destruct (negb (http.StatusCode resp =? 200)); [reflexivity|].
  destruct (unmarshal _ _ _ _) as [basicResponse|e]; [|reflexivity].
  erewrite (for_range_describe p token env).
  - cbn [app]. reflexivity.
  - intros acc server h'. go.
    destruct (GetFlavorDetails p token _ env h') as [[f|e] h'']; reflexivity.
Qed.

(** Without a token nothing is listed. *)
Lemma GetAllVMInstances_no_token (env : Env) (h h1 : list Event) (p : Participant.t)
    (e : error) :
  GetAuthToken p env h = (Err e, h1) ->
  GetAllVMInstances p env h = (Err ("인증 실패: " +:+ e), h1).
Proof.
  intros Hauth. unfold GetAllVMInstances. unfold bind at 1. rewrite Hauth. reflexivity.
Qed.

Lemma GetAllVMInstances_listed (env : Env) (h h1 : list Event) (p : Participant.t)
    (token : string) (resp : http.Response) (basicResponse : BasicListResponse.t) :
  listed env h h1 p token resp basicResponse ->
  let servers := BasicListResponse.Servers basicResponse in
  let h2 := h1 ++ exchange env (get_json_request (detail_url p) token) in
  GetAllVMInstances p env h =
  ( Ok (descriptors servers (flavor_lookups p token env h2 servers)),
    h2 ++ flat_map (fun server => exchange env (flavor_request p token server)) servers ).
Proof.
  intros (Hauth & Hurl & Hdo & Hbody & Hst & Hjson) servers h2.
  pose proof (GetAllVMInstances_complete env h h1 p token Hauth) as Hc.
  cbv zeta in Hc. rewrite Hc, Hurl, Hdo, Hbody, Hst, Hjson. reflexivity.
Qed.

(** C4: once the list was fetched and decoded, [GetAllVMInstances] returns
    a list, never an error; it has one descriptor per server, and a server
    whose flavor lookup failed is in it at its position with the placeholder
    flavor: name ["Unknown"], no vCPU, no RAM, no disk. *)
Theorem GetAllVMInstances_placeholder (env : Env) (h h1 : list Event) (p : Participant.t)
    (token : string) (resp : http.Response) (basicResponse : BasicListResponse.t) :
  listed env h h1 p token resp basicResponse ->
  let servers := BasicListResponse.Servers basicResponse in
  let h2 := h1 ++ exchange env (get_json_request (detail_url p) token) in
  exists vms : list VMInstance.t,
    run (GetAllVMInstances p) env h = Ok vms /\
    length vms = length servers /\
    forall (i : nat) (server : BasicServer.t) (e : error),
      servers !! i = Some server ->
      flavor_lookups p token env h2 servers !! i = Some (Err e) ->
      exists vm : VMInstance.t,
        vms !! i = Some vm /\
        VMInstance.ID vm = BasicServer.ID server /\
        FlavorDetails.Name (VMInstance.Flavor vm) = "Unknown" /\
        FlavorDetails.VCPUs (VMInstance.Flavor vm) = 0 /\
        FlavorDetails.RAM (VMInstance.Flavor vm) = 0 /\
        FlavorDetails.Disk (VMInstance.Flavor vm) = 0.
Proof.
  intros Hl servers h2.
  exists (descriptors servers (flavor_lookups p token env h2 servers)).
  split; [|split].
  - unfold run. rewrite (GetAllVMInstances_listed _ _ _ _ _ _ _ Hl). reflexivity.
  - unfold descriptors. rewrite length_zip_with, flavor_lookups_length. lia.
  - intros i server e Hs Hr.
    exists (descriptor server (unknown_flavor (FlavorRef.ID (BasicServer.Flavor server)))).
    split; [|repeat split].
    unfold descriptors. rewrite lookup_zip_with, Hs. cbn. rewrite Hr. reflexivity.
Qed.

Lemma GetAllVMInstances_placeholder_witness :
  exists vms : list VMInstance.t,
    run (GetAllVMInstances Sample.participant) (Sample.env Sample.two_servers) [] = Ok vms /\
    length vms = 2%nat /\
    exists vm : VMInstance.t,
      vms !! 1%nat = Some vm /\
      VMInstance.ID vm = "i-2" /\
      FlavorDetails.Name (VMInstance.Flavor vm) = "Unknown" /\
      FlavorDetails.VCPUs (VMInstance.Flavor vm) = 0 /\
      FlavorDetails.RAM (VMInstance.Flavor vm) = 0 /\
      FlavorDetails.Disk (VMInstance.Flavor vm) = 0.
Proof.
  destruct (GetAllVMInstances_placeholder (Sample.env Sample.two_servers) []
              (exchange (Sample.env Sample.two_servers) (token_request Sample.participant))
              Sample.participant "abc"
              (Sample.response 200 Sample.two_servers_text)
              (BasicListResponse.mk [Sample.server_1; Sample.server_2]))
    as (vms & Hrun & Hlen & Hph).
  - repeat split; vm_compute; reflexivity.
  - exists vms. split; [exact Hrun|]. split; [exact Hlen|].
    apply (Hph 1%nat Sample.server_2 "Flavor 정보 조회 실패: HTTP 404").
    + reflexivity.
    + vm_compute. reflexivity.
Defined.

(** C8: once the list was fetched and decoded, the effects of
    [GetAllVMInstances] after the detail request are the flavor exchanges
    of the servers, one whole exchange after the other in the order of the
    response, and the descriptors returned stand in that same order: the
    i-th descriptor is built from the i-th server. *)
Theorem GetAllVMInstances_in_order (env : Env) (h h1 : list Event) (p : Participant.t)
    (token : string) (resp : http.Response) (basicResponse : BasicListResponse.t) :
  listed env h h1 p token resp basicResponse ->
  let servers := BasicListResponse.Servers basicResponse in
  let h2 := h1 ++ exchange env (get_json_request (detail_url p) token) in
  exists vms : list VMInstance.t,
    GetAllVMInstances p env h =
      (Ok vms, h2 ++ flat_map (fun server => exchange env (flavor_request p token server)) servers) /\
    Forall2 (fun server vm => exists flavor, vm = descriptor server flavor) servers vms.
Proof.
  intros Hl servers h2.
  exists (descriptors servers (flavor_lookups p token env h2 servers)).
  split; [exact (GetAllVMInstances_listed _ _ _ _ _ _ _ Hl)|].
  pose proof (flavor_lookups_length p token env servers h2) as Hlen.
  unfold descriptors. revert Hlen. generalize (flavor_lookups p token env h2 servers).
  induction servers as [|server rest IH]; intros [|r lookups] Hlen;
    try discriminate; cbn [zip_with]; constructor.
  - eexists. reflexivity.
  - apply IH. cbn in Hlen. congruence.
Qed.

Lemma GetAllVMInstances_in_order_witness :
  exists vms : list VMInstance.t,
    GetAllVMInstances Sample.participant (Sample.env Sample.two_servers) [] =
      ( Ok vms,
        [ EvNewRequest "POST" "http://controller/identity/v3/auth/tokens";
          EvDo (token_request Sample.participant);
          EvNewRequest "GET" "http://controller/compute/v2.1/servers/detail";
          EvDo (get_json_request "http://controller/compute/v2.1/servers/detail" "abc");
          EvNewRequest "GET" "http://controller/compute/v2.1/flavors/f1";
          EvDo (get_json_request "http://controller/compute/v2.1/flavors/f1" "abc");
          EvNewRequest "GET" "http://controller/compute/v2.1/flavors/f2";
          EvDo (get_json_request "http://controller/compute/v2.1/flavors/f2" "abc") ] ) /\
    Forall2 (fun server vm => exists flavor, vm = descriptor server flavor)
      [Sample.server_1; Sample.server_2] vms.
Proof.
  apply (GetAllVMInstances_in_order (Sample.env Sample.two_servers) []
           (exchange (Sample.env Sample.two_servers) (token_request Sample.participant))
           Sample.participant "abc"
           (Sample.response 200 Sample.two_servers_text)
           (BasicListResponse.mk [Sample.server_1; Sample.server_2])).
  repeat split; vm_compute; reflexivity.
Defined.

(** *** The plain listing *)

(** Every outcome of [ListVMInstances]. *)
Lemma ListVMInstances_complete (env : Env) (h : list Event) (p : Participant.t)
    (token : string) :
  ListVMInstances p token env h =
    ( match url_Parse env (plain_list_url p) with
      | Some e => Err ("HTTP 요청 생성 실패: " +:+ e)
      | None =>
          match client_Do env (h ++ [EvNewRequest "GET" (plain_list_url p)])
                  (get_request (plain_list_url p) token) with
          | Err e => Err ("VM 목록 조회 실패: " +:+ e)
          | Ok resp =>
              if negb (http.StatusCode resp =? 200)
              then Err ("VM 목록 조회 실패: HTTP " +:+ fmt_d (http.StatusCode resp))
              else
                match http.BodyErr resp with
                | Some e => Err ("응답 읽기 실패: " +:+ e)
                | None =>
                    match unmarshal env VMListResponse.decode VMListResponse.zero
                            (http.Body resp) with
                    | Ok response => Ok (VMListResponse.Servers response)
                    | Err e => Err ("응답 파싱 실패: " +:+ e)
                    end
                end
          end
      end,
      h ++ exchange env (get_request (plain_list_url p) token) ).
Proof.
  unfold ListVMInstances, exchange. go.
  change (http.URL (get_request (plain_list_url p) token)) with (plain_list_url p).
  change (Participant.OpenStackEndpoint p +:+ "/v2.1/servers/detail") with (plain_list_url p).
  destruct (url_Parse env (plain_list_url p)) as [e|]; go; [reflexivity|].
  change (http.Request_SetHeader _ _ _) with (get_request (plain_list_url p) token).
  rewrite <- app_assoc. cbn [app http.Method get_request].
  destruct (client_Do env _ _) as [resp|e]; [|reflexivity].
  unfold http.StatusOK.
  destruct (negb (http.StatusCode resp =? 200)); [reflexivity|].
  destruct (http.BodyErr resp) as [e|]; go; [reflexivity|].
  destruct (unmarshal _ _ _ _); reflexivity.
Qed.

(** *** Runtime status *)

(** Every outcome of [GetVMRuntimeStatus] once a token was obtained: the
    status code of the answer plays no part. *)
Lemma GetVMRuntimeStatus_complete (env : Env) (h h1 : list Event) (p : Participant.t)
    (token instanceID : string) :
  GetAuthToken p env h = (Ok token, h1) ->
  let req := get_request (server_url p instanceID) token in
  let h2 := h1 ++ exchange env req in
  GetVMRuntimeStatus p instanceID env h =
    match url_Parse env (server_url p instanceID) with
    | Some e => (Err ("HTTP 요청 생성 실패: " +:+ e), h2)
    | None =>
        match client_Do env (h1 ++ [EvNewRequest "GET" (server_url p instanceID)]) req with
        | Err e => (Err ("VM 상태 조회 실패: " +:+ e), h2)
        | Ok resp =>
            match unmarshal env RuntimeResponse.decode RuntimeResponse.zero
                    (http.Body resp) with
            | Err e => (Err ("응답 파싱 실패: " +:+ e), h2)
            | Ok response =>
                ( Ok {| VMRuntimeInfo.InstanceID := instanceID;
                        VMRuntimeInfo.Status :=
                          RuntimeServer.Status (RuntimeResponse.Server response);
                        VMRuntimeInfo.PowerState :=
                          RuntimeServer.PowerState (RuntimeResponse.Server response);
                        VMRuntimeInfo.LastChecked := clock env h2 |},
                  h2 ++ [EvNow] )
            end
        end
    end.
Proof.
  intros Hauth req h2. subst h2. unfold GetVMRuntimeStatus, exchange.
  unfold bind at 1. rewrite Hauth. go.
  change (http.URL req) with (server_url p instanceID).
  change (Participant.OpenStackEndpoint p +:+ "/compute/v2.1/servers/" +:+ instanceID)
    with (server_url p instanceID).
  destruct (url_Parse env (server_url p instanceID)) as [e|]; go; [reflexivity|].
  change (http.Request_SetHeader _ _ _) with req.
  rewrite <- app_assoc. cbn [app]. change (http.Method req) with "GET".
  destruct (client_Do env _ req) as [resp|e]; [|reflexivity].
  destruct (unmarshal _ _ _ _) as [response|e]; reflexivity.
Qed.

(** *** Status codes other than 200 *)

Lemma GetVMInstance_not_200 (env : Env) (h : list Event) (vm : VirtualMachine.t)
    (p : Participant.t) (token : string) (resp : http.Response) :
  VirtualMachine.InstanceID vm <> "" ->
  url_Parse env (server_url p (VirtualMachine.InstanceID vm)) = None ->
  client_Do env (h ++ [EvNewRequest "GET" (server_url p (VirtualMachine.InstanceID vm))])
    (get_request (server_url p (VirtualMachine.InstanceID vm)) token) = Ok resp ->
  http.StatusCode resp <> 200 ->
  run (GetVMInstance vm p token) env h =
  Err ("VM 정보 조회 실패: HTTP " +:+ fmt_d (http.StatusCode resp)).
Proof.
  intros Hid Hurl Hdo Hst. unfold run.
  pose proof (GetVMInstance_complete env h vm p token Hid) as Hc. cbv zeta in Hc.
  rewrite Hc, Hurl, Hdo. apply Z.eqb_neq in Hst. rewrite Hst. reflexivity.
Qed.

Lemma ListVMInstances_not_200 (env : Env) (h : list Event) (p : Participant.t)
    (token : string) (resp : http.Response) :
  url_Parse env (plain_list_url p) = None ->
  client_Do env (h ++ [EvNewRequest "GET" (plain_list_url p)])
    (get_request (plain_list_url p) token) = Ok resp ->
  http.StatusCode resp <> 200 ->
  run (ListVMInstances p token) env h =
  Err ("VM 목록 조회 실패: HTTP " +:+ fmt_d (http.StatusCode resp)).
Proof.
  intros Hurl Hdo Hst. unfold run. rewrite ListVMInstances_complete, Hurl, Hdo.
  apply Z.eqb_neq in Hst. rewrite Hst. reflexivity.
Qed.

Lemma GetAllVMInstances_not_200 (env : Env) (h h1 : list Event) (p : Participant.t)
    (token : string) (resp : http.Response) :
  GetAuthToken p env h = (Ok token, h1) ->
  url_Parse env (detail_url p) = None ->
  client_Do env (h1 ++ [EvNewRequest "GET" (detail_url p)])
    (get_json_request (detail_url p) token) = Ok resp ->
  http.StatusCode resp <> 200 ->
  exists e : error, run (GetAllVMInstances p) env h = Err e.
Proof.
  intros Hauth Hurl Hdo Hst. unfold run.
  pose proof (GetAllVMInstances_complete env h h1 p token Hauth) as Hc. cbv zeta in Hc.
  rewrite Hc, Hurl, Hdo. apply Z.eqb_neq in Hst. rewrite Hst.
  destruct (http.BodyErr resp); cbn; eauto.
Qed.

(** [GetVMRuntimeStatus] returns a result for any status code, provided
    the body decodes. *)
Lemma GetVMRuntimeStatus_any_status (env : Env) (h h1 : list Event) (p : Participant.t)
    (token instanceID : string) (resp : http.Response) (response : RuntimeResponse.t) :
  GetAuthToken p env h = (Ok token, h1) ->
  url_Parse env (server_url p instanceID) = None ->
  client_Do env (h1 ++ [EvNewRequest "GET" (server_url p instanceID)])
    (get_request (server_url p instanceID) token) = Ok resp ->
  unmarshal env RuntimeResponse.decode RuntimeResponse.zero (http.Body resp) = Ok response ->
  exists info : VMRuntimeInfo.t,
    run (GetVMRuntimeStatus p instanceID) env h = Ok info /\
    VMRuntimeInfo.Status info = RuntimeServer.Status (RuntimeResponse.Server response) /\
    VMRuntimeInfo.PowerState info = RuntimeServer.PowerState (RuntimeResponse.Server response).
Proof.
  intros Hauth Hurl Hdo Hjson. unfold run.
  pose proof (GetVMRuntimeStatus_complete env h h1 p token instanceID Hauth) as Hc.
  cbv zeta in Hc. rewrite Hc, Hurl, Hdo, Hjson. cbn. eauto.
Qed.

(** C2: the single-instance endpoint answers 404 for an instance that does
    not exist, with a JSON body describing the fault; [GetVMRuntimeStatus]
    does not fail on it but returns a runtime record with an empty status
    and power state 0, where [GetVMInstance] on the same answer fails. *)
Theorem GetVMRuntimeStatus_accepts_404 :
  run (GetVMRuntimeStatus Sample.participant "i-9") (Sample.env Sample.no_such_server) [] =
    Ok {| VMRuntimeInfo.InstanceID := "i-9";
          VMRuntimeInfo.Status := "";
          VMRuntimeInfo.PowerState := 0;
          VMRuntimeInfo.LastChecked := 4000000 |} /\
  Sample.serve Sample.no_such_server
    (get_request (server_url Sample.participant "i-9") "abc") =
    Ok (Sample.response 404 Sample.not_found_text) /\
  run (GetVMInstance (VirtualMachine.mk "i-9") Sample.participant "abc")
    (Sample.env Sample.no_such_server) [] =
    Err "VM 정보 조회 실패: HTTP 404".
Proof. repeat split; vm_compute; reflexivity. Qed.

(** C7: [GetAllVMInstances] sends its listing request to
    [{endpoint}/compute/v2.1/servers/detail] with the token in
    [X-Auth-Token]; [ListVMInstances] sends its own, with the same header,
    to [{endpoint}/v2.1/servers/detail], which lacks the [/compute] part. *)
Theorem ListVMInstances_other_url :
  history (ListVMInstances Sample.participant "abc") (Sample.env Sample.two_servers) [] =
    [ EvNewRequest "GET" "http://controller/v2.1/servers/detail";
      EvDo {| http.Method := "GET";
              http.URL := "http://controller/v2.1/servers/detail";
              http.ReqHeader := {[ "X-Auth-Token" := ["abc"] ]};
              http.ReqBody := None |} ] /\
  run (ListVMInstances Sample.participant "abc") (Sample.env Sample.two_servers) [] =
    Err "VM 목록 조회 실패: dial tcp: connect: connection refused" /\
  detail_url Sample.participant = "http://controller/compute/v2.1/servers/detail" /\
  nth_error (history (GetAllVMInstances Sample.participant) (Sample.env Sample.two_servers) [])
    3 =
    Some (EvDo {| http.Method := "GET";
                  http.URL := "http://controller/compute/v2.1/servers/detail";
                  http.ReqHeader := {[ "X-Auth-Token" := ["abc"];
                                       "Accept" := ["application/json"] ]};
                  http.ReqBody := None |}).
Proof. repeat split; vm_compute; reflexivity. Qed.

(** *** The descriptor of a fetched instance *)

(** Once the instance was fetched and decoded, [GetVMInstance] returns the
    descriptor of the decoded server with the flavor looked up, or the
    placeholder: every field of the server is carried over but the
    availability zone, which is empty. *)
Lemma GetVMInstance_descriptor (env : Env) (h : list Event) (vm : VirtualMachine.t)
    (p : Participant.t) (token : string) (resp : http.Response)
    (basicResponse : BasicResponse.t) :
  VirtualMachine.InstanceID vm <> "" ->
  let url := server_url p (VirtualMachine.InstanceID vm) in
  let server := BasicResponse.Server basicResponse in
  url_Parse env url = None ->
  client_Do env (h ++ [EvNewRequest "GET" url]) (get_request url token) = Ok resp ->
  http.StatusCode resp = 200 ->
  http.BodyErr resp = None ->
  unmarshal env BasicResponse.decode BasicResponse.zero (http.Body resp) = Ok basicResponse ->
  run (GetVMInstance vm p token) env h =
  Ok (descriptor server
        (flavor_or_unknown server
           (run (GetFlavorDetails p token (FlavorRef.ID (BasicServer.Flavor server)))
              env (h ++ exchange env (get_request url token))))).
Proof.
  intros Hid url server Hurl Hdo Hst Hbody Hjson. unfold run.
  pose proof (GetVMInstance_complete env h vm p token Hid) as Hc. cbv zeta in Hc.
  fold url in Hc. rewrite Hc, Hurl, Hdo, Hst, Hbody, Hjson. cbn [Z.eqb Pos.eqb negb].
  fold server. destruct (GetFlavorDetails p token _ env _) as [r h2]. reflexivity.
Qed.

(** C1: an instance in availability zone [nova], fetched with its flavor.
    The answer decodes with the zone in place, and the descriptor returned
    by [GetVMInstance] carries id, name, status, flavor, addresses, power
    state and timestamps of the answer, but an empty availability zone;
    the descriptors of [GetAllVMInstances] lose the zone in the same way. *)
Theorem GetVMInstance_drops_availability_zone :
  unmarshal (Sample.env Sample.one_server) BasicResponse.decode BasicResponse.zero
    (JsonText.dq Sample.server_1_text) = Ok (BasicResponse.mk Sample.server_1) /\
  BasicServer.AvailabilityZone Sample.server_1 = "nova" /\
  run (GetVMInstance (VirtualMachine.mk "i-1") Sample.participant "abc")
    (Sample.env Sample.one_server) [] =
    Ok {| VMInstance.ID := "i-1";
          VMInstance.Name := "trainer";
          VMInstance.Status := "ACTIVE";
          VMInstance.Flavor := Sample.flavor_1;
          VMInstance.Addresses := {[ "private" := [Address.mk "10.0.0.5" "fixed"] ]};
          VMInstance.PowerState := 1;
          VMInstance.AvailabilityZone := "";
          VMInstance.Created := "2025-01-01T00:00:00Z";
          VMInstance.Updated := "2025-01-02T00:00:00Z" |} /\
  option_map VMInstance.AvailabilityZone
    (match run (GetAllVMInstances Sample.participant) (Sample.env Sample.two_servers) [] with
     | Ok vms => vms !! 0%nat
     | Err _ => None
     end) = Some "".
Proof. repeat split; vm_compute; reflexivity. Qed.

(** *** Health probe *)

(** C5: [HealthCheckSpecificVM] always returns a health result and never
    an error.  When no token is obtained, or the instance cannot be
    fetched, the result is unhealthy with status ["ERROR"] and a message
    that ends with the message of the failure.  When the instance is
    fetched, the result is healthy exactly when the status of the instance
    is ["ACTIVE"], it carries that status, and a status other than
    ["ACTIVE"] is repeated at the end of the message. *)
Theorem HealthCheckSpecificVM_never_fails (env : Env) (h : list Event)
    (p : Participant.t) (vm : VirtualMachine.t) :
  exists res : VMHealthCheckResult.t,
    run (HealthCheckSpecificVM p vm) env h = Ok res /\
    match GetAuthToken p env (h ++ [EvNow]) with
    | (Err err, _) =>
        VMHealthCheckResult.Healthy res = false /\
        VMHealthCheckResult.Status res = "ERROR" /\
        VMHealthCheckResult.Message res = "인증 실패: " +:+ err
    | (Ok token, h1) =>
        match run (GetVMInstance vm p token) env h1 with
        | Err err =>
            VMHealthCheckResult.Healthy res = false /\
            VMHealthCheckResult.Status res = "ERROR" /\
            VMHealthCheckResult.Message res = "VM 조회 실패: " +:+ err
        | Ok instance =>
            (VMHealthCheckResult.Healthy res = true <-> VMInstance.Status instance = "ACTIVE") /\
            VMHealthCheckResult.Status res = VMInstance.Status instance /\
            (VMInstance.Status instance <> "ACTIVE" ->
             VMHealthCheckResult.Message res =
             "VM 상태가 비정상입니다: " +:+ VMInstance.Status instance)
        end
    end.
Proof.
  unfold HealthCheckSpecificVM, run. go.
  destruct (GetAuthToken p env (h ++ [EvNow])) as [[token|err] h1]; go.
  - destruct (GetVMInstance vm p token env h1) as [[instance|err] h2]; go; cbn [fst].
    + eexists. split; [reflexivity|]. cbn.
      destruct (String.eqb_spec (VMInstance.Status instance) "ACTIVE") as [Heq|Hne].
      * split; [tauto|]. split; [reflexivity|]. intros Hne. contradiction.
      * split; [|split; [reflexivity|]].
        -- split; [discriminate | intros; contradiction].
        -- intros _. reflexivity.
    + eexists. split; [reflexivity|]. cbn. auto.
  - eexists. split; [reflexivity|]. cbn. auto.
Qed.

(** *** Monitoring stub *)

(** C9: two calls of [GetVMMonitoringInfo] with the same instance id, at
    any two moments in any two environments, both succeed and return the
    same instance id and the same constants for CPU, memory and disk usage
    and for the network byte counts; the last-updated field of each is the
    clock reading at its call. *)
Theorem GetVMMonitoringInfo_constants (instanceID : string)
    (env1 env2 : Env) (h1 h2 : list Event) :
  exists info1 info2 : VMMonitoringInfo.t,
    run (GetVMMonitoringInfo instanceID) env1 h1 = Ok info1 /\
    run (GetVMMonitoringInfo instanceID) env2 h2 = Ok info2 /\
    VMMonitoringInfo.InstanceID info1 = instanceID /\
    VMMonitoringInfo.InstanceID info2 = instanceID /\
    VMMonitoringInfo.CPUUsage info1 = float64_of_ratio 755 10 /\
    VMMonitoringInfo.CPUUsage info2 = float64_of_ratio 755 10 /\
    VMMonitoringInfo.MemoryUsage info1 = float64_of_ratio 823 10 /\
    VMMonitoringInfo.MemoryUsage info2 = float64_of_ratio 823 10 /\
    VMMonitoringInfo.DiskUsage info1 = float64_of_ratio 458 10 /\
    VMMonitoringInfo.DiskUsage info2 = float64_of_ratio 458 10 /\
    VMMonitoringInfo.NetworkInBytes info1 = 1024000 /\
    VMMonitoringInfo.NetworkInBytes info2 = 1024000 /\
    VMMonitoringInfo.NetworkOutBytes info1 = 2048000 /\
    VMMonitoringInfo.NetworkOutBytes info2 = 2048000 /\
    VMMonitoringInfo.LastUpdated info1 = clock env1 h1 /\
    VMMonitoringInfo.LastUpdated info2 = clock env2 h2.
Proof.
  unfold GetVMMonitoringInfo. go. cbn [fst].
  do 2 eexists. repeat split.
Qed.

(** *** The testable properties of the specification, run

    Section 8 of the specification lists scenarios against a mocked
    server; here they are evaluated on the scripted one. *)

Example authenticator_returns_header_value :
  run (GetAuthToken Sample.participant) (Sample.env [Sample.auth_ok]) [] = Ok "abc".
Proof. vm_compute. reflexivity. Qed.

Example authenticator_rejects_status_200 :
  run (GetAuthToken Sample.participant)
    (Sample.env [("POST", "http://controller/identity/v3/auth/tokens",
                  Ok (http.mkResponse 200 (http.Header_Set ∅ "X-Subject-Token" "abc") "" None))])
    [] = Err "인증 실패: HTTP 200".
Proof. vm_compute. reflexivity. Qed.

Example lister_masks_failed_flavor_lookup :
  run (GetAllVMInstances Sample.participant) (Sample.env Sample.two_servers) [] =
  Ok [ descriptor Sample.server_1 Sample.flavor_1;
       descriptor Sample.server_2 (FlavorDetails.mk "f2" "Unknown" 0 0 0) ].
Proof. vm_compute. reflexivity. Qed.

Example health_probe_active :
  run (HealthCheckSpecificVM Sample.participant (VirtualMachine.mk "i-1"))
    (Sample.env Sample.one_server) [] =
  Ok {| VMHealthCheckResult.Healthy := true;
        VMHealthCheckResult.Status := "ACTIVE";
        VMHealthCheckResult.Message := "VM이 정상적으로 동작 중입니다";
        VMHealthCheckResult.CheckedAt := 7000000;
        VMHealthCheckResult.ResponseTime := 8 |}.
Proof. vm_compute. reflexivity. Qed.

Example health_probe_stopped :
  run (HealthCheckSpecificVM Sample.participant (VirtualMachine.mk "i-1"))
    (Sample.env Sample.stopped_server) [] =
  Ok {| VMHealthCheckResult.Healthy := false;
        VMHealthCheckResult.Status := "SHUTOFF";
        VMHealthCheckResult.Message := "VM 상태가 비정상입니다: SHUTOFF";
        VMHealthCheckResult.CheckedAt := 7000000;
        VMHealthCheckResult.ResponseTime := 8 |}.
Proof. vm_compute. reflexivity. Qed.

Example health_probe_unreachable :
  run (HealthCheckSpecificVM Sample.participant (VirtualMachine.mk "i-9"))
    (Sample.env Sample.no_such_server) [] =
  Ok {| VMHealthCheckResult.Healthy := false;
        VMHealthCheckResult.Status := "ERROR";
        VMHealthCheckResult.Message := "VM 조회 실패: VM 정보 조회 실패: HTTP 404";
        VMHealthCheckResult.CheckedAt := 5000000;
        VMHealthCheckResult.ResponseTime := 6 |}.
Proof. vm_compute. reflexivity. Qed.

(** The plain listing decodes straight into [VMInstance] and keeps the
    availability zone of each server. *)
Example plain_listing_keeps_availability_zone :
  match run (ListVMInstances Sample.participant "abc")
          (Sample.env [("GET", "http://controller/v2.1/servers/detail",
                        Sample.json 200 Sample.two_servers_text)]) [] with
  | Ok vms => map VMInstance.AvailabilityZone vms
  | Err _ => []
  end = ["nova"; ""].
Proof. vm_compute. reflexivity. Qed.

(** The constants of the monitoring stub as binary64 values. *)
Example monitoring_constants :
  float64_of_ratio 755 10 = S754_finite false 5312840185413632 (-46) /\
  float64_of_ratio 823 10 = S754_finite false 5791347645821747 (-46) /\
  float64_of_ratio 458 10 = S754_finite false 6445776966674022 (-47).
Proof. repeat split; vm_compute; reflexivity. Qed.

(** ** Further properties of the service

    The operations around the claims above: what each of them sends, when
    it succeeds, and how they fit together. *)

(** *** What the operations have in common *)

Lemma sends_app (t u : list Event) : sends (t ++ u) = (sends t + sends u)%nat.
Proof.
  induction t as [|ev t IH]; [reflexivity|].
  destruct ev; cbn [app sends]; rewrite IH; reflexivity.
Qed.

Lemma sends_exchange (env : Env) (req : http.Request) :
  (sends (exchange env req) <= 1)%nat.
Proof. unfold exchange. destruct (url_Parse env _); cbn; lia. Qed.

Lemma credential_dec (p : Participant.t) :
  { Participant.OpenStackApplicationCredentialID p <> "" /\
    Participant.OpenStackApplicationCredentialSecret p <> "" } +
  { Participant.OpenStackApplicationCredentialID p = "" \/
    Participant.OpenStackApplicationCredentialSecret p = "" }.
Proof.
  destruct (string_dec (Participant.OpenStackApplicationCredentialID p) "") as [Hi|Hi];
    [right; left; exact Hi|].
  destruct (string_dec (Participant.OpenStackApplicationCredentialSecret p) "") as [Hs|Hs];
    [right; right; exact Hs|].
  left. split; assumption.
Qed.

(** With an incomplete credential [GetAuthToken] stops before any effect. *)
Lemma GetAuthToken_incomplete (env : Env) (h : list Event) (p : Participant.t) :
  Participant.OpenStackApplicationCredentialID p = "" \/
  Participant.OpenStackApplicationCredentialSecret p = "" ->
  GetAuthToken p env h = (Err "application Credential 인증 정보가 필요합니다", h).
Proof.
  intros [H | H]; unfold GetAuthToken; rewrite H; [reflexivity|].
  rewrite andb_comm. reflexivity.
Qed.

(** The effects of [GetAuthToken]: nothing, or the token exchange. *)
Lemma GetAuthToken_effects (env : Env) (h : list Event) (p : Participant.t) :
  exists t : list Event,
    snd (GetAuthToken p env h) = h ++ t /\
    (t = [] \/ t = exchange env (token_request p)).
Proof.
  destruct (credential_dec p) as [[Hi Hs]|Hinc].
  - rewrite (GetAuthToken_complete env h p Hi Hs). cbn [snd]. eauto.
  - rewrite (GetAuthToken_incomplete env h p Hinc). cbn [snd].
    exists []. rewrite app_nil_r. auto.
Qed.

(** The effects of [GetVMInstance]: nothing for an empty instance id;
    otherwise the exchange for the instance, followed, when the answer was
    accepted and decoded, by the exchange for its flavor. *)
Lemma GetVMInstance_trace (env : Env) (h : list Event) (vm : VirtualMachine.t)
    (p : Participant.t) (token : string) :
  let req := get_request (server_url p (VirtualMachine.InstanceID vm)) token in
  match GetVMInstance vm p token env h with
  | (Err _, h') => h' = h \/ h' = h ++ exchange env req
  | (Ok _, h') =>
      exists flavorID : string,
        h' = h ++ exchange env req
               ++ exchange env (get_json_request (flavor_url p flavorID) token)
  end.
Proof.
  intros req.
  destruct (string_dec (VirtualMachine.InstanceID vm) "") as [Hid|Hid].
  - unfold GetVMInstance. rewrite Hid. cbn. auto.
  - pose proof (GetVMInstance_complete env h vm p token Hid) as Hc. cbv zeta in Hc.
    fold req in Hc. rewrite Hc. clear Hc.
    destruct (url_Parse env _) as [e|] eqn:Hurl; [auto|].
    destruct (client_Do env _ req) as [resp|e]; [|auto].
    destruct (negb _); [auto|].
    destruct (http.BodyErr resp); [auto|].
    destruct (unmarshal _ _ _ _) as [basicResponse|e]; [|auto].
    cbv zeta.
    match goal with |- context [GetFlavorDetails ?a ?b ?c ?d ?e] =>
      pose proof (GetFlavorDetails_history d e a b c) as Hh;
      destruct (GetFlavorDetails a b c d e) as [r h2] end.
    cbn [snd] in Hh. subst h2. eexists. rewrite <- app_assoc. reflexivity.
Qed.

(** *** Flavor lookup, in full *)

(** X1: [GetFlavorDetails] returns a flavor exactly when its request was
    accepted, answered with status 200 and a readable body, and the body
    decoded; the flavor returned is the [flavor] member of the answer.
    Whatever the outcome, its effects are one exchange with the flavor
    endpoint: the request is built once and sent at most once. *)
Theorem GetFlavorDetails_success_iff (env : Env) (h : list Event) (p : Participant.t)
    (token flavorID : string) :
  (forall f : FlavorDetails.t,
     run (GetFlavorDetails p token flavorID) env h = Ok f <->
     exists (resp : http.Response) (response : FlavorResponse.t),
       url_Parse env (flavor_url p flavorID) = None /\
       client_Do env (h ++ [EvNewRequest "GET" (flavor_url p flavorID)])
         (get_json_request (flavor_url p flavorID) token) = Ok resp /\
       http.StatusCode resp = 200 /\
       http.BodyErr resp = None /\
       unmarshal env FlavorResponse.decode FlavorResponse.zero (http.Body resp)
         = Ok response /\
       f = FlavorResponse.Flavor response) /\
  history (GetFlavorDetails p token flavorID) env h =
    h ++ exchange env (get_json_request (flavor_url p flavorID) token).
Proof.
  unfold run, history. rewrite GetFlavorDetails_complete. cbn [fst snd].
  split; [|reflexivity]. intros f. split.
  - destruct (url_Parse env _) as [e|]; [discriminate|].
    destruct (client_Do env _ _) as [resp|e]; [|discriminate].
    destruct (Z.eqb_spec (http.StatusCode resp) 200) as [Hst|Hst]; cbn [negb];
      [|discriminate].
    destruct (http.BodyErr resp) as [e|] eqn:Hbody; [discriminate|].
    destruct (unmarshal _ _ _ _) as [response|e] eqn:Hjson; [|discriminate].
    intros [= <-]. exists resp, response. auto 10.
  - intros (resp & response & -> & -> & -> & -> & -> & ->). reflexivity.
Qed.

(** *** Fetching one instance, in full *)

(** X2: a failed [GetVMInstance] never looked a flavor up: its effects are
    nothing at all or the one exchange for the instance.  A successful one
    made exactly two exchanges, first for the instance and then for a
    flavor. *)
Theorem GetVMInstance_effects (env : Env) (h : list Event) (vm : VirtualMachine.t)
    (p : Participant.t) (token : string) :
  let req := get_request (server_url p (VirtualMachine.InstanceID vm)) token in
  (forall e : error,
     run (GetVMInstance vm p token) env h = Err e ->
     history (GetVMInstance vm p token) env h = h \/
     history (GetVMInstance vm p token) env h = h ++ exchange env req) /\
  (forall vmInstance : VMInstance.t,
     run (GetVMInstance vm p token) env h = Ok vmInstance ->
     exists flavorID : string,
       history (GetVMInstance vm p token) env h =
       h ++ exchange env req ++ exchange env (get_json_request (flavor_url p flavorID) token)).
Proof.
  intros req. unfold run, history.
  pose proof (GetVMInstance_trace env h vm p token) as Ht. cbv zeta in Ht. fold req in Ht.
  destruct (GetVMInstance vm p token env h) as [[vmI|e'] h']; cbn [fst snd].
  - split; [discriminate|]. intros _ _. exact Ht.
  - split; [|discriminate]. intros _ _. exact Ht.
Qed.

(** X3: once the instance was fetched and decoded, [GetVMInstance] succeeds
    whether or not the flavor is found.  A flavor that was looked up is put
    into the descriptor as it came; a failed lookup is replaced by the
    placeholder that keeps the flavor id of the server and has the name
    ["Unknown"] and no resources. *)
Theorem GetVMInstance_flavor_fallback (env : Env) (h : list Event)
    (vm : VirtualMachine.t) (p : Participant.t) (token : string)
    (resp : http.Response) (basicResponse : BasicResponse.t) :
  VirtualMachine.InstanceID vm <> "" ->
  let url := server_url p (VirtualMachine.InstanceID vm) in
  let server := BasicResponse.Server basicResponse in
  let flavorID := FlavorRef.ID (BasicServer.Flavor server) in
  let lookup := run (GetFlavorDetails p token flavorID) env
                  (h ++ exchange env (get_request url token)) in
  url_Parse env url = None ->
  client_Do env (h ++ [EvNewRequest "GET" url]) (get_request url token) = Ok resp ->
  http.StatusCode resp = 200 ->
  http.BodyErr resp = None ->
  unmarshal env BasicResponse.decode BasicResponse.zero (http.Body resp) = Ok basicResponse ->
  (forall f : FlavorDetails.t,
     lookup = Ok f ->
     run (GetVMInstance vm p token) env h = Ok (descriptor server f)) /\
  (forall e : error,
     lookup = Err e ->
     run (GetVMInstance vm p token) env h =
     Ok (descriptor server (FlavorDetails.mk flavorID "Unknown" 0 0 0))).
Proof.
  intros Hid url server flavorID lookup Hurl Hdo Hst Hbody Hjson.
  pose proof (GetVMInstance_descriptor env h vm p token resp basicResponse
                Hid Hurl Hdo Hst Hbody Hjson) as Hd.
  cbv zeta in Hd. fold url server flavorID lookup in Hd.
  split; intros x Hx; rewrite Hd, Hx; reflexivity.
Qed.

Lemma GetVMInstance_flavor_fallback_witness :
  run (GetVMInstance (VirtualMachine.mk "i-1") Sample.participant "abc")
    (Sample.env Sample.stopped_server) [] =
  Ok (descriptor (BasicServer.mk "i-1" "" "SHUTOFF" (FlavorRef.mk "f1") ∅ 0 "" "" "")
        (FlavorDetails.mk "f1" "Unknown" 0 0 0)).
Proof.
  apply (GetVMInstance_flavor_fallback (Sample.env Sample.stopped_server) []
           (VirtualMachine.mk "i-1") Sample.participant "abc"
           (Sample.response 200 "{'server': {'id': 'i-1', 'status': 'SHUTOFF', 'flavor': {'id': 'f1'}}}")
           (BasicResponse.mk (BasicServer.mk "i-1" "" "SHUTOFF" (FlavorRef.mk "f1") ∅ 0 "" "" "")))
    with (e := "Flavor 정보 조회 실패: dial tcp: connect: connection refused");
    try discriminate; vm_compute; reflexivity.
Defined.

(** *** The plain listing, in full *)

(** X4: [ListVMInstances] returns a list exactly when its request was
    accepted, answered with status 200 and a readable body, and the body
    decoded; the list is the [servers] member as decoded, flavors
    included, and no flavor is looked up: whatever the outcome, the
    effects are the one exchange for the list. *)
Theorem ListVMInstances_success_iff (env : Env) (h : list Event) (p : Participant.t)
    (token : string) :
  (forall vms : list VMInstance.t,
     run (ListVMInstances p token) env h = Ok vms <->
     exists (resp : http.Response) (response : VMListResponse.t),
       url_Parse env (plain_list_url p) = None /\
       client_Do env (h ++ [EvNewRequest "GET" (plain_list_url p)])
         (get_request (plain_list_url p) token) = Ok resp /\
       http.StatusCode resp = 200 /\
       http.BodyErr resp = None /\
       unmarshal env VMListResponse.decode VMListResponse.zero (http.Body resp)
         = Ok response /\
       vms = VMListResponse.Servers response) /\
  history (ListVMInstances p token) env h =
    h ++ exchange env (get_request (plain_list_url p) token).
Proof.
  unfold run, history. rewrite ListVMInstances_complete. cbn [fst snd].
  split; [|reflexivity]. intros vms. split.
  - destruct (url_Parse env _) as [e|]; [discriminate|].
    destruct (client_Do env _ _) as [resp|e]; [|discriminate].
    destruct (Z.eqb_spec (http.StatusCode resp) 200) as [Hst|Hst]; cbn [negb];
      [|discriminate].
    destruct (http.BodyErr resp) as [e|] eqn:Hbody; [discriminate|].
    destruct (unmarshal _ _ _ _) as [response|e] eqn:Hjson; [|discriminate].
    intros [= <-]. exists resp, response. auto 10.
  - intros (resp & response & -> & -> & -> & -> & -> & ->). reflexivity.
Qed.

(** *** Health probe and task assignment, unfolded *)

Lemma HealthCheckSpecificVM_complete (env : Env) (h : list Event)
    (p : Participant.t) (vm : VirtualMachine.t) :
  HealthCheckSpecificVM p vm env h =
  let (r, h2) := token_then_instance p vm env (h ++ [EvNow]) in
  ( Ok (health_result r (clock env h2)
          (time_Sub (clock env (h2 ++ [EvNow])) (clock env h))),
    h2 ++ [EvNow; EvNow] ).
Proof.
  unfold HealthCheckSpecificVM, token_then_instance. go.
  destruct (GetAuthToken p env (h ++ [EvNow])) as [[token|err] h1]; go.
  - destruct (GetVMInstance vm p token env h1) as [[instance|err] h2]; go;
      rewrite <- app_assoc; cbn [app health_result].
    + destruct (String.eqb _ "ACTIVE"); reflexivity.
    + reflexivity.
  - rewrite <- app_assoc. reflexivity.
Qed.

Lemma token_then_instance_effects (p : Participant.t) (vm : VirtualMachine.t)
    (env : Env) (h : list Event) :
  exists t : list Event,
    snd (token_then_instance p vm env h) = h ++ t /\ (sends t <= 3)%nat.
Proof.
  unfold token_then_instance.
  destruct (GetAuthToken_effects env h p) as (t1 & Ht1 & Hc1).
  assert (Hs1 : (sends t1 <= 1)%nat).
  { destruct Hc1 as [-> | ->]; [cbn; lia | apply sends_exchange]. }
  destruct (GetAuthToken p env h) as [[token|err] h1]; cbn [snd] in Ht1; subst h1.
  - pose proof (GetVMInstance_trace env (h ++ t1) vm p token) as Ht. cbv zeta in Ht.
    destruct (GetVMInstance vm p token env (h ++ t1)) as [[instance|err] h2]; cbn [snd].
    + destruct Ht as (fid & ->). eexists. rewrite <- app_assoc. split; [reflexivity|].
      rewrite !sends_app.
      pose proof (sends_exchange env
                    (get_request (server_url p (VirtualMachine.InstanceID vm)) token)).
      pose proof (sends_exchange env (get_json_request (flavor_url p fid) token)). lia.
    + destruct Ht as [-> | ->].
      * exists t1. split; [reflexivity | lia].
      * eexists. rewrite <- app_assoc. split; [reflexivity|]. rewrite sends_app.
        pose proof (sends_exchange env
                      (get_request (server_url p (VirtualMachine.InstanceID vm)) token)).
        lia.
  - exists t1. split; [reflexivity | lia].
Qed.

Lemma AssignFederatedLearningTaskSpecific_complete (env : Env) (h : list Event)
    (p : Participant.t) (vm : VirtualMachine.t) (taskID : string) :
  AssignFederatedLearningTaskSpecific p vm taskID env h =
  match GetAuthToken p env h with
  | (Err err, h1) => (Err ("인증 실패: " +:+ err), h1)
  | (Ok token, h1) =>
      match GetVMInstance vm p token env h1 with
      | (Err err, h2) => (Err ("VM 상태 확인 실패: " +:+ err), h2)
      | (Ok instance, h2) =>
          ( if String.eqb (VMInstance.Status instance) "ACTIVE"
            then Ok tt
            else Err ("VM이 활성 상태가 아닙니다: " +:+ VMInstance.Status instance),
            h2 )
      end
  end.
Proof.
  unfold AssignFederatedLearningTaskSpecific. go.
  destruct (GetAuthToken p env h) as [[token|err] h1]; [|reflexivity].
  destruct (GetVMInstance vm p token env h1) as [[instance|err] h2]; [|reflexivity].
  destruct (String.eqb _ "ACTIVE"); reflexivity.
Qed.

(** *** Operations that begin with authentication *)

(** X5: with an incomplete credential, the operations that fetch their own
    token build and send no request at all.  The listing, the runtime
    status and the task assignment fail with the configuration error
    behind the prefix of a failed authentication; the health probe returns
    its negative result and its only effects are three readings of the
    clock. *)
Theorem incomplete_credential_sends_nothing (env : Env) (h : list Event)
    (p : Participant.t) (vm : VirtualMachine.t) (instanceID taskID : string) :
  Participant.OpenStackApplicationCredentialID p = "" \/
  Participant.OpenStackApplicationCredentialSecret p = "" ->
  let cause := "인증 실패: application Credential 인증 정보가 필요합니다" in
  GetAllVMInstances p env h = (Err cause, h) /\
  GetVMRuntimeStatus p instanceID env h = (Err cause, h) /\
  AssignFederatedLearningTaskSpecific p vm taskID env h = (Err cause, h) /\
  HealthCheckSpecificVM p vm env h =
    ( Ok {| VMHealthCheckResult.Healthy := false;
            VMHealthCheckResult.Status := "ERROR";
            VMHealthCheckResult.Message := cause;
            VMHealthCheckResult.CheckedAt := clock env (h ++ [EvNow]);
            VMHealthCheckResult.ResponseTime :=
              Milliseconds (time_Sub (clock env (h ++ [EvNow; EvNow])) (clock env h)) |},
      h ++ [EvNow; EvNow; EvNow] ).
Proof.
  intros Hinc cause. repeat split.
  - apply GetAllVMInstances_no_token with (e := "application Credential 인증 정보가 필요합니다").
    apply GetAuthToken_incomplete, Hinc.
  - unfold GetVMRuntimeStatus. unfold bind at 1.
    rewrite (GetAuthToken_incomplete env h p Hinc). reflexivity.
  - rewrite AssignFederatedLearningTaskSpecific_complete.
    rewrite (GetAuthToken_incomplete env h p Hinc). reflexivity.
  - rewrite HealthCheckSpecificVM_complete. unfold token_then_instance.
    rewrite (GetAuthToken_incomplete env (h ++ [EvNow]) p Hinc).
    rewrite <- !app_assoc. reflexivity.
Qed.

Lemma incomplete_credential_sends_nothing_witness :
  GetAllVMInstances (Participant.mk "http://controller" "" "app-secret")
    (Sample.env Sample.two_servers) [] =
    (Err "인증 실패: application Credential 인증 정보가 필요합니다", []) /\
  history (HealthCheckSpecificVM (Participant.mk "http://controller" "" "app-secret")
             (VirtualMachine.mk "i-1")) (Sample.env Sample.one_server) [] =
    [EvNow; EvNow; EvNow].
Proof.
  destruct (incomplete_credential_sends_nothing (Sample.env Sample.two_servers) []
              (Participant.mk "http://controller" "" "app-secret")
              (VirtualMachine.mk "i-1") "i-1" "task-1") as (Hall & _).
  - left. reflexivity.
  - split; [exact Hall | vm_compute; reflexivity].
Defined.

(** *** Listing with flavors, in full *)

Lemma sends_lookups (env : Env) (p : Participant.t) (token : string)
    (servers : list BasicServer.t) :
  (sends (flat_map (fun server => exchange env (flavor_request p token server)) servers)
   <= length servers)%nat.
Proof.
  induction servers as [|server rest IH]; [cbn; lia|].
  cbn [flat_map length]. rewrite sends_app.
  pose proof (sends_exchange env (flavor_request p token server)). lia.
Qed.

(** X6: when [GetAllVMInstances] fails, no flavor was looked up: beyond
    what authentication did, its effects are nothing or the one exchange
    for the list. *)
Theorem GetAllVMInstances_failure_effects (env : Env) (h : list Event)
    (p : Participant.t) (e : error) :
  run (GetAllVMInstances p) env h = Err e ->
  history (GetAllVMInstances p) env h = history (GetAuthToken p) env h \/
  exists token : string,
    history (GetAllVMInstances p) env h =
    history (GetAuthToken p) env h ++ exchange env (get_json_request (detail_url p) token).
Proof.
  unfold run, history.
  destruct (GetAuthToken p env h) as [[token|err] h1] eqn:Hauth.
  - pose proof (GetAllVMInstances_complete env h h1 p token Hauth) as Hc.
    cbv zeta in Hc. rewrite Hc. clear Hc. cbn [snd].
    destruct (url_Parse env _) as [e'|]; [eauto|].
    destruct (client_Do env _ _) as [resp|e']; [|eauto].
    destruct (http.BodyErr resp); [eauto|].
    destruct (negb _); [eauto|].
    destruct (unmarshal _ _ _ _); [discriminate | eauto].
  - rewrite (GetAllVMInstances_no_token env h h1 p err Hauth). auto.
Qed.

Lemma GetAllVMInstances_failure_effects_witness :
  history (GetAllVMInstances Sample.participant) (Sample.env Sample_broken_listing) [] =
    history (GetAuthToken Sample.participant) (Sample.env Sample_broken_listing) [] \/
  exists token : string,
    history (GetAllVMInstances Sample.participant) (Sample.env Sample_broken_listing) [] =
    history (GetAuthToken Sample.participant) (Sample.env Sample_broken_listing) []
      ++ exchange (Sample.env Sample_broken_listing)
           (get_json_request (detail_url Sample.participant) token).
Proof.
  apply (GetAllVMInstances_failure_effects (Sample.env Sample_broken_listing) []
           Sample.participant "VM 목록 조회 실패: HTTP 500, 응답: upstream unavailable").
  vm_compute. reflexivity.
Defined.

(** X7: the errors of [GetAllVMInstances] on an answer it does not accept.
    The body is read before the status is looked at, so a body that
    cannot be read gives the read error whatever the status; a readable
    body under a status other than 200 gives an error that carries both the
    status code and the whole body. *)
Theorem GetAllVMInstances_rejected_answer (env : Env) (h h1 : list Event)
    (p : Participant.t) (token : string) (resp : http.Response) :
  GetAuthToken p env h = (Ok token, h1) ->
  url_Parse env (detail_url p) = None ->
  client_Do env (h1 ++ [EvNewRequest "GET" (detail_url p)])
    (get_json_request (detail_url p) token) = Ok resp ->
  (forall e : error,
     http.BodyErr resp = Some e ->
     run (GetAllVMInstances p) env h = Err ("응답 읽기 실패: " +:+ e)) /\
  (http.BodyErr resp = None ->
   http.StatusCode resp <> 200 ->
   run (GetAllVMInstances p) env h =
   Err ("VM 목록 조회 실패: HTTP " +:+ fmt_d (http.StatusCode resp)
        +:+ ", 응답: " +:+ http.Body resp)).
Proof.
  intros Hauth Hurl Hdo. unfold run.
  pose proof (GetAllVMInstances_complete env h h1 p token Hauth) as Hc. cbv zeta in Hc.
  rewrite Hc, Hurl, Hdo. clear Hc. split.
  - intros e ->. reflexivity.
  - intros -> Hst. apply Z.eqb_neq in Hst. rewrite Hst. reflexivity.
Qed.

Lemma GetAllVMInstances_rejected_answer_witness :
  run (GetAllVMInstances Sample.participant) (Sample.env Sample_broken_listing) [] =
  Err "VM 목록 조회 실패: HTTP 500, 응답: upstream unavailable".
Proof.
  apply (GetAllVMInstances_rejected_answer (Sample.env Sample_broken_listing) []
           (exchange (Sample.env Sample_broken_listing) (token_request Sample.participant))
           Sample.participant "abc" (http.mkResponse 500 ∅ "upstream unavailable" None));
    try discriminate; vm_compute; reflexivity.
Defined.

(** X8: once the list was fetched and decoded, a server whose flavor
    lookup succeeded is described with the flavor exactly as the lookup
    returned it, at the position of the server. *)
Theorem GetAllVMInstances_enriched (env : Env) (h h1 : list Event) (p : Participant.t)
    (token : string) (resp : http.Response) (basicResponse : BasicListResponse.t) :
  listed env h h1 p token resp basicResponse ->
  let servers := BasicListResponse.Servers basicResponse in
  let h2 := h1 ++ exchange env (get_json_request (detail_url p) token) in
  exists vms : list VMInstance.t,
    run (GetAllVMInstances p) env h = Ok vms /\
    forall (i : nat) (server : BasicServer.t) (f : FlavorDetails.t),
      servers !! i = Some server ->
      flavor_lookups p token env h2 servers !! i = Some (Ok f) ->
      vms !! i = Some (descriptor server f).
Proof.
  intros Hl servers h2.
  exists (descriptors servers (flavor_lookups p token env h2 servers)). split.
  - unfold run. rewrite (GetAllVMInstances_listed _ _ _ _ _ _ _ Hl). reflexivity.
  - intros i server f Hs Hr. unfold descriptors.
    rewrite lookup_zip_with, Hs. cbn. rewrite Hr. reflexivity.
Qed.

Lemma GetAllVMInstances_enriched_witness :
  exists vms : list VMInstance.t,
    run (GetAllVMInstances Sample.participant) (Sample.env Sample.two_servers) [] = Ok vms /\
    vms !! 0%nat = Some (descriptor Sample.server_1 Sample.flavor_1).
Proof.
  destruct (GetAllVMInstances_enriched (Sample.env Sample.two_servers) []
              (exchange (Sample.env Sample.two_servers) (token_request Sample.participant))
              Sample.participant "abc"
              (Sample.response 200 Sample.two_servers_text)
              (BasicListResponse.mk [Sample.server_1; Sample.server_2]))
    as (vms & Hrun & Hen).
  - repeat split; vm_compute; reflexivity.
  - exists vms. split; [exact Hrun|].
    apply (Hen 0%nat Sample.server_1 Sample.flavor_1); vm_compute; reflexivity.
Defined.

(** *** One attempt each *)

(** X9: no operation repeats a request.  [GetAuthToken],
    [GetFlavorDetails] and [ListVMInstances] only add to the history and
    send at most one request; [GetVMInstance] at most two. *)
Theorem single_attempt (env : Env) (h : list Event) (p : Participant.t)
    (vm : VirtualMachine.t) (token flavorID : string) :
  (exists t, history (GetAuthToken p) env h = h ++ t /\ (sends t <= 1)%nat) /\
  (exists t, history (GetFlavorDetails p token flavorID) env h = h ++ t /\
             (sends t <= 1)%nat) /\
  (exists t, history (ListVMInstances p token) env h = h ++ t /\ (sends t <= 1)%nat) /\
  (exists t, history (GetVMInstance vm p token) env h = h ++ t /\ (sends t <= 2)%nat).
Proof.
  unfold history. repeat split.
  - destruct (GetAuthToken_effects env h p) as (t & Ht & [-> | ->]).
    + exists []. split; [exact Ht | cbn; lia].
    + eexists. split; [exact Ht | apply sends_exchange].
  - rewrite GetFlavorDetails_history. eexists. split; [reflexivity | apply sends_exchange].
  - rewrite ListVMInstances_complete. cbn [snd].
    eexists. split; [reflexivity | apply sends_exchange].
  - pose proof (GetVMInstance_trace env h vm p token) as Ht. cbv zeta in Ht.
    pose proof (sends_exchange env
                  (get_request (server_url p (VirtualMachine.InstanceID vm)) token)) as Hs.
    destruct (GetVMInstance vm p token env h) as [[vmI|e] h']; cbn [snd].
    + destruct Ht as (fid & ->). eexists. split; [reflexivity|]. rewrite sends_app.
      pose proof (sends_exchange env (get_json_request (flavor_url p fid) token)). lia.
    + destruct Ht as [-> | ->].
      * exists []. rewrite app_nil_r. split; [reflexivity | cbn; lia].
      * eexists. split; [reflexivity | lia].
Qed.

Lemma GetVMRuntimeStatus_trace (env : Env) (h : list Event) (p : Participant.t)
    (instanceID : string) :
  exists t : list Event,
    snd (GetVMRuntimeStatus p instanceID env h) = h ++ t /\ (sends t <= 2)%nat.
Proof.
  destruct (GetAuthToken_effects env h p) as (t1 & Ht1 & Hc1).
  assert (Hs1 : (sends t1 <= 1)%nat).
  { destruct Hc1 as [-> | ->]; [cbn; lia | apply sends_exchange]. }
  destruct (GetAuthToken p env h) as [[token|err] h1] eqn:Hauth; cbn [snd] in Ht1; subst h1.
  - pose proof (GetVMRuntimeStatus_complete env h _ p token instanceID Hauth) as Hc.
    cbv zeta in Hc. rewrite Hc. clear Hc.
    pose proof (sends_exchange env (get_request (server_url p instanceID) token)) as Hs.
    destruct (url_Parse env _) as [e|].
    { cbn [snd]. eexists. rewrite <- app_assoc. split; [reflexivity|].
      rewrite sends_app. lia. }
    destruct (client_Do env _ _) as [resp|e].
    2:{ cbn [snd]. eexists. rewrite <- app_assoc. split; [reflexivity|].
        rewrite sends_app. lia. }
    destruct (unmarshal _ _ _ _) as [response|e]; cbn [snd].
    + eexists. rewrite <- !app_assoc. split; [reflexivity|].
      rewrite !sends_app. cbn [sends]. lia.
    + eexists. rewrite <- app_assoc. split; [reflexivity|]. rewrite sends_app. lia.
  - unfold GetVMRuntimeStatus. unfold bind at 1. rewrite Hauth. cbn.
    exists t1. split; [reflexivity | lia].
Qed.

(** X10: the composed operations stay within the attempts of their parts.
    [GetVMRuntimeStatus] sends at most two requests, the health probe and
    the task assignment at most three (token, instance, flavor), and the
    monitoring call none. *)
Theorem composed_attempts (env : Env) (h : list Event) (p : Participant.t)
    (vm : VirtualMachine.t) (instanceID taskID : string) :
  (exists t, history (GetVMRuntimeStatus p instanceID) env h = h ++ t /\
             (sends t <= 2)%nat) /\
  (exists t, history (HealthCheckSpecificVM p vm) env h = h ++ t /\ (sends t <= 3)%nat) /\
  (exists t, history (AssignFederatedLearningTaskSpecific p vm taskID) env h = h ++ t /\
             (sends t <= 3)%nat) /\
  (exists t, history (MonitorSpecificVM p vm) env h = h ++ t /\ sends t = 0%nat).
Proof.
  unfold history. repeat split.
  - apply GetVMRuntimeStatus_trace.
  - rewrite HealthCheckSpecificVM_complete.
    destruct (token_then_instance_effects p vm env (h ++ [EvNow])) as (t & Ht & Hs).
    destruct (token_then_instance p vm env (h ++ [EvNow])) as [r h2].
    cbn [snd] in *. subst h2. eexists. rewrite <- !app_assoc. split; [reflexivity|].
    rewrite !sends_app. cbn [sends]. lia.
  - rewrite AssignFederatedLearningTaskSpecific_complete.
    destruct (token_then_instance_effects p vm env h) as (t & Ht & Hs).
    unfold token_then_instance in Ht.
    destruct (GetAuthToken p env h) as [[token|err] h1].
    + destruct (GetVMInstance vm p token env h1) as [[instance|err] h2];
        cbn [snd] in *; eauto.
    + cbn [snd] in *. eauto.
  - exists [EvNow]. split; reflexivity.
Qed.

(** X11: [GetAllVMInstances] sends at most two requests plus one per
    instance it returns, and at most two when it fails. *)
Theorem GetAllVMInstances_attempts (env : Env) (h : list Event) (p : Participant.t) :
  exists t : list Event,
    history (GetAllVMInstances p) env h = h ++ t /\
    (sends t <= 2 + match run (GetAllVMInstances p) env h with
                    | Ok vms => length vms
                    | Err _ => 0
                    end)%nat.
Proof.
  unfold run, history.
  destruct (GetAuthToken_effects env h p) as (t1 & Ht1 & Hc1).
  assert (Hs1 : (sends t1 <= 1)%nat).
  { destruct Hc1 as [-> | ->]; [cbn; lia | apply sends_exchange]. }
  destruct (GetAuthToken p env h) as [[token|err] h1] eqn:Hauth; cbn [snd] in Ht1; subst h1.
  - pose proof (GetAllVMInstances_complete env h _ p token Hauth) as Hc.
    cbv zeta in Hc. rewrite Hc. clear Hc.
    pose proof (sends_exchange env (get_json_request (detail_url p) token)) as Hs.
    assert (Hshort : exists t, (h ++ t1) ++ exchange env (get_json_request (detail_url p) token)
                               = h ++ t /\ (sends t <= 2)%nat).
    { eexists. rewrite <- app_assoc. split; [reflexivity|]. rewrite sends_app. lia. }
    destruct (url_Parse env _) as [e|].
    { destruct Hshort as (t & Ht & Hle). exists t. cbn [fst snd]. split; [exact Ht | lia]. }
    destruct (client_Do env _ _) as [resp|e].
    2:{ destruct Hshort as (t & Ht & Hle). exists t. cbn [fst snd]. split; [exact Ht | lia]. }
    destruct (http.BodyErr resp).
    { destruct Hshort as (t & Ht & Hle). exists t. cbn [fst snd]. split; [exact Ht | lia]. }
    destruct (negb _).
    { destruct Hshort as (t & Ht & Hle). exists t. cbn [fst snd]. split; [exact Ht | lia]. }
    destruct (unmarshal _ _ _ _) as [basicResponse|e].
    2:{ destruct Hshort as (t & Ht & Hle). exists t. cbn [fst snd]. split; [exact Ht | lia]. }
    cbv zeta. cbn [fst snd]. eexists. rewrite <- !app_assoc. split; [reflexivity|].
    rewrite !sends_app. unfold descriptors.
    rewrite length_zip_with, flavor_lookups_length.
    pose proof (sends_lookups env p token (BasicListResponse.Servers basicResponse)). lia.
  - rewrite (GetAllVMInstances_no_token env h _ p err Hauth). cbn [fst snd].
    exists t1. split; [reflexivity | lia].
Qed.

(** *** Runtime status, in full *)

(** X12: [GetVMRuntimeStatus] returns a record exactly when a token was
    obtained, the request for the instance was accepted and answered, and
    what was read of the body decoded.  Neither the status code of the
    answer nor an error while reading the body plays any part.  The record
    repeats the instance id it was asked for and carries the decoded status
    and power state and the clock reading after the exchange. *)
Theorem GetVMRuntimeStatus_success_iff (env : Env) (h : list Event) (p : Participant.t)
    (instanceID : string) (info : VMRuntimeInfo.t) :
  run (GetVMRuntimeStatus p instanceID) env h = Ok info <->
  exists (token : string) (h1 : list Event) (resp : http.Response)
         (response : RuntimeResponse.t),
    GetAuthToken p env h = (Ok token, h1) /\
    url_Parse env (server_url p instanceID) = None /\
    client_Do env (h1 ++ [EvNewRequest "GET" (server_url p instanceID)])
      (get_request (server_url p instanceID) token) = Ok resp /\
    unmarshal env RuntimeResponse.decode RuntimeResponse.zero (http.Body resp)
      = Ok response /\
    info =
      {| VMRuntimeInfo.InstanceID := instanceID;
         VMRuntimeInfo.Status := RuntimeServer.Status (RuntimeResponse.Server response);
         VMRuntimeInfo.PowerState :=
           RuntimeServer.PowerState (RuntimeResponse.Server response);
         VMRuntimeInfo.LastChecked :=
           clock env (h1 ++ exchange env (get_request (server_url p instanceID) token)) |}.
Proof.
  unfold run. split.
  - destruct (GetAuthToken p env h) as [[token|err] h1] eqn:Hauth.
    + pose proof (GetVMRuntimeStatus_complete env h h1 p token instanceID Hauth) as Hc.
      cbv zeta in Hc. rewrite Hc. clear Hc.
      destruct (url_Parse env _) as [e|] eqn:Hurl; [discriminate|].
      destruct (client_Do env _ _) as [resp|e] eqn:Hdo; [|discriminate].
      destruct (unmarshal _ _ _ _) as [response|e] eqn:Hjson; [|discriminate].
      cbn [fst]. intros [= <-]. exists token, h1, resp, response. auto 10.
    + unfold GetVMRuntimeStatus. unfold bind at 1. rewrite Hauth. discriminate.
  - intros (token & h1 & resp & response & Hauth & Hurl & Hdo & Hjson & ->).
    pose proof (GetVMRuntimeStatus_complete env h h1 p token instanceID Hauth) as Hc.
    cbv zeta in Hc. rewrite Hc, Hurl, Hdo, Hjson. reflexivity.
Qed.

(** *** Answers without the expected member *)

Lemma find_field_miss {T} (tag : string) (d : Json.decoder T) (key : string) :
  misses tag key -> Json.find_field [(tag, d)] key = None.
Proof.
  intros Hm. unfold Json.find_field. cbn [List.find fst snd].
  destruct (String.eqb_spec tag key) as [->|_]; [exfalso; apply Hm; reflexivity|].
  destruct (String.eqb_spec (Json.fold_name tag) (Json.fold_name key)) as [Heq|_];
    [exfalso; apply Hm; symmetry; exact Heq | reflexivity].
Qed.

Lemma dec_members_miss {T} (tag : string) (d : Json.decoder T) (cur : T)
    (members : list (string * Json.value)) :
  Forall (fun kv => misses tag (fst kv)) members ->
  Json.dec_members [(tag, d)] cur members = Ok cur.
Proof.
  induction 1 as [|[key v] rest Hm _ IH]; [reflexivity|].
  cbn [Json.dec_members]. rewrite (find_field_miss tag d key Hm). exact IH.
Qed.

(** X13: an answer to [GetVMRuntimeStatus] whose body is a JSON object
    without a [server] member, as the fault bodies of the compute service
    are, is not an error: the record returned has an empty status and power
    state 0. *)
Theorem GetVMRuntimeStatus_missing_server (env : Env) (h h1 : list Event)
    (p : Participant.t) (token instanceID : string) (resp : http.Response)
    (members : list (string * Json.value)) :
  GetAuthToken p env h = (Ok token, h1) ->
  url_Parse env (server_url p instanceID) = None ->
  client_Do env (h1 ++ [EvNewRequest "GET" (server_url p instanceID)])
    (get_request (server_url p instanceID) token) = Ok resp ->
  json_scan env (http.Body resp) = Ok (Json.Object members) ->
  Forall (fun kv => misses "server" (fst kv)) members ->
  run (GetVMRuntimeStatus p instanceID) env h =
  Ok {| VMRuntimeInfo.InstanceID := instanceID;
        VMRuntimeInfo.Status := "";
        VMRuntimeInfo.PowerState := 0;
        VMRuntimeInfo.LastChecked :=
          clock env (h1 ++ exchange env (get_request (server_url p instanceID) token)) |}.
Proof.
  intros Hauth Hurl Hdo Hscan Hmiss. unfold run.
  pose proof (GetVMRuntimeStatus_complete env h h1 p token instanceID Hauth) as Hc.
  cbv zeta in Hc. rewrite Hc, Hurl, Hdo. clear Hc.
  unfold unmarshal. rewrite Hscan. cbn [result_bind].
  unfold RuntimeResponse.decode, Json.dec_struct, RuntimeResponse.fields.
  cbv beta iota.
  match goal with |- context [Json.dec_members ?f ?c members] =>
    assert (Hd : Json.dec_members f c members = Ok c)
      by (apply (dec_members_miss "server"); exact Hmiss);
    rewrite Hd end.
  reflexivity.
Qed.

Lemma GetVMRuntimeStatus_missing_server_witness :
  run (GetVMRuntimeStatus Sample.participant "i-9") (Sample.env Sample.no_such_server) [] =
  Ok {| VMRuntimeInfo.InstanceID := "i-9";
        VMRuntimeInfo.Status := "";
        VMRuntimeInfo.PowerState := 0;
        VMRuntimeInfo.LastChecked := 4000000 |}.
Proof.
  apply (GetVMRuntimeStatus_missing_server (Sample.env Sample.no_such_server) []
           (exchange (Sample.env Sample.no_such_server) (token_request Sample.participant))
           Sample.participant "abc" "i-9"
           (Sample.response 404 Sample.not_found_text)
           [("itemNotFound",
             Json.Object [("message", Json.String "Instance i-9 could not be found.");
                          ("code", Json.Number "404")])]).
  - vm_compute. reflexivity.
  - reflexivity.
  - vm_compute. reflexivity.
  - vm_compute. reflexivity.
  - repeat constructor. vm_compute. discriminate.
Defined.

(** X14: an accepted answer to [GetAllVMInstances] whose body is a JSON
    object without a [servers] member is not an error either: the list
    returned is empty and nothing is looked up. *)
Theorem GetAllVMInstances_missing_servers (env : Env) (h h1 : list Event)
    (p : Participant.t) (token : string) (resp : http.Response)
    (members : list (string * Json.value)) :
  GetAuthToken p env h = (Ok token, h1) ->
  url_Parse env (detail_url p) = None ->
  client_Do env (h1 ++ [EvNewRequest "GET" (detail_url p)])
    (get_json_request (detail_url p) token) = Ok resp ->
  http.BodyErr resp = None ->
  http.StatusCode resp = 200 ->
  json_scan env (http.Body resp) = Ok (Json.Object members) ->
  Forall (fun kv => misses "servers" (fst kv)) members ->
  GetAllVMInstances p env h =
  (Ok [], h1 ++ exchange env (get_json_request (detail_url p) token)).
Proof.
  intros Hauth Hurl Hdo Hbody Hst Hscan Hmiss.
  assert (Hl : listed env h h1 p token resp BasicListResponse.zero).
  { repeat split; try assumption.
    unfold unmarshal. rewrite Hscan. cbn [result_bind].
    unfold BasicListResponse.decode, Json.dec_struct, BasicListResponse.fields.
    cbv beta iota. apply (dec_members_miss "servers"). exact Hmiss. }
  rewrite (GetAllVMInstances_listed _ _ _ _ _ _ _ Hl). cbn. rewrite app_nil_r. reflexivity.
Qed.

Lemma GetAllVMInstances_missing_servers_witness :
  GetAllVMInstances Sample.participant (Sample.env Sample_odd_listing) [] =
  ( Ok [],
    exchange (Sample.env Sample_odd_listing) (token_request Sample.participant)
      ++ exchange (Sample.env Sample_odd_listing)
           (get_json_request (detail_url Sample.participant) "abc") ).
Proof.
  apply (GetAllVMInstances_missing_servers (Sample.env Sample_odd_listing) []
           (exchange (Sample.env Sample_odd_listing) (token_request Sample.participant))
           Sample.participant "abc"
           (Sample.response 200 "{'Server': [{'id': 'i-1'}], 'count': 1}")
           [("Server", Json.Array [Json.Object [("id", Json.String "i-1")]]);
            ("count", Json.Number "1")]).
  - vm_compute. reflexivity.
  - reflexivity.
  - vm_compute. reflexivity.
  - reflexivity.
  - reflexivity.
  - vm_compute. reflexivity.
  - repeat constructor; vm_compute; discriminate.
Defined.

(** *** Task assignment *)

(** X15: [AssignFederatedLearningTaskSpecific] succeeds exactly when a
    token was obtained, the instance was fetched, and its status is
    ["ACTIVE"].  It does nothing of its own: its effects are those of the
    authentication and the fetch, and the task id plays no part in the
    outcome or in what is sent. *)
Theorem AssignFederatedLearningTaskSpecific_iff (env : Env) (h : list Event)
    (p : Participant.t) (vm : VirtualMachine.t) (taskID : string) :
  (run (AssignFederatedLearningTaskSpecific p vm taskID) env h = Ok tt <->
   exists (token : string) (h1 : list Event) (instance : VMInstance.t),
     GetAuthToken p env h = (Ok token, h1) /\
     run (GetVMInstance vm p token) env h1 = Ok instance /\
     VMInstance.Status instance = "ACTIVE") /\
  history (AssignFederatedLearningTaskSpecific p vm taskID) env h =
    snd (token_then_instance p vm env h) /\
  (forall taskID' : string,
     AssignFederatedLearningTaskSpecific p vm taskID' env h =
     AssignFederatedLearningTaskSpecific p vm taskID env h).
Proof.
  unfold run, history, token_then_instance.
  split; [|split].
  - rewrite AssignFederatedLearningTaskSpecific_complete. split.
    + destruct (GetAuthToken p env h) as [[token|err] h1]; [|discriminate].
      destruct (GetVMInstance vm p token env h1) as [[instance|err] h2] eqn:Hget;
        [|discriminate].
      cbn [fst].
      destruct (String.eqb_spec (VMInstance.Status instance) "ACTIVE") as [Hact|Hact];
        [|discriminate].
      intros _. exists token, h1, instance. rewrite Hget. auto.
    + intros (token & h1 & instance & -> & Hget & Hact).
      destruct (GetVMInstance vm p token env h1) as [[instance'|err] h2];
        cbn [fst] in Hget; [|discriminate].
      injection Hget as ->. cbn [fst]. rewrite Hact. reflexivity.
  - rewrite AssignFederatedLearningTaskSpecific_complete.
    destruct (GetAuthToken p env h) as [[token|err] h1]; [|reflexivity].
    destruct (GetVMInstance vm p token env h1) as [[instance|err] h2]; reflexivity.
  - intros taskID'. rewrite !AssignFederatedLearningTaskSpecific_complete. reflexivity.
Qed.

(** X16: the health probe and the task assignment judge an instance alike.
    A probe started at some moment reports healthy exactly when an
    assignment started right after the first clock reading of the probe
    succeeds. *)
Theorem healthy_iff_assignable (env : Env) (h : list Event)
    (p : Participant.t) (vm : VirtualMachine.t) (taskID : string) :
  exists res : VMHealthCheckResult.t,
    run (HealthCheckSpecificVM p vm) env h = Ok res /\
    (VMHealthCheckResult.Healthy res = true <->
     run (AssignFederatedLearningTaskSpecific p vm taskID) env (h ++ [EvNow]) = Ok tt).
Proof.
  unfold run. rewrite HealthCheckSpecificVM_complete,
    AssignFederatedLearningTaskSpecific_complete.
  unfold token_then_instance.
  destruct (GetAuthToken p env (h ++ [EvNow])) as [[token|err] h1].
  - destruct (GetVMInstance vm p token env h1) as [[instance|err] h2]; cbn [fst].
    + eexists. split; [reflexivity|]. cbn [health_result VMHealthCheckResult.Healthy].
      destruct (String.eqb (VMInstance.Status instance) "ACTIVE"); split;
        intros; try reflexivity; discriminate.
    + eexists. split; [reflexivity|]. cbn. split; discriminate.
  - eexists. split; [reflexivity|]. cbn. split; discriminate.
Qed.

(** *** The times of the health probe *)

Lemma time_Sub_bounds (t u : Z) : - 2 ^ 63 <= time_Sub t u <= 2 ^ 63 - 1.
Proof. unfold time_Sub. lia. Qed.

Lemma time_Sub_nonneg (t u : Z) : u <= t -> 0 <= time_Sub t u.
Proof. unfold time_Sub. lia. Qed.

(** X17: the elapsed time a health probe reports always fits the range of
    milliseconds in a 64-bit duration, and under a clock that never runs
    backwards it is not negative and the probe is stamped no earlier than
    it started. *)
Theorem HealthCheckSpecificVM_times (env : Env) (h : list Event)
    (p : Participant.t) (vm : VirtualMachine.t) :
  exists res : VMHealthCheckResult.t,
    run (HealthCheckSpecificVM p vm) env h = Ok res /\
    - 9223372036854 <= VMHealthCheckResult.ResponseTime res <= 9223372036854 /\
    (clock_monotone env ->
     0 <= VMHealthCheckResult.ResponseTime res /\
     clock env h <= VMHealthCheckResult.CheckedAt res).
Proof.
  unfold run. rewrite HealthCheckSpecificVM_complete.
  destruct (token_then_instance_effects p vm env (h ++ [EvNow])) as (t & Ht & _).
  destruct (token_then_instance p vm env (h ++ [EvNow])) as [r h2].
  cbn [snd] in Ht. subst h2. cbn [fst]. eexists. split; [reflexivity|].
  assert (Hrt : forall d, VMHealthCheckResult.ResponseTime
                            (health_result r (clock env ((h ++ [EvNow]) ++ t)) d)
                          = Milliseconds d).
  { intros d. destruct r; reflexivity. }
  assert (Hca : VMHealthCheckResult.CheckedAt
                  (health_result r (clock env ((h ++ [EvNow]) ++ t))
                     (time_Sub (clock env (((h ++ [EvNow]) ++ t) ++ [EvNow])) (clock env h)))
                = clock env ((h ++ [EvNow]) ++ t)).
  { destruct r; reflexivity. }
  rewrite Hrt, Hca. unfold Milliseconds. split.
  - pose proof (time_Sub_bounds (clock env (((h ++ [EvNow]) ++ t) ++ [EvNow])) (clock env h))
      as Hb.
    set (d := time_Sub _ _) in *. clearbody d.
    change (2 ^ 63) with 9223372036854775808 in Hb.
    pose proof (Z.quot_le_mono (-9223372036854775808) d 1000000 ltac:(lia) ltac:(lia)) as H1.
    pose proof (Z.quot_le_mono d 9223372036854775807 1000000 ltac:(lia) ltac:(lia)) as H2.
    change (-9223372036854775808 ÷ 1000000) with (-9223372036854) in H1.
    change (9223372036854775807 ÷ 1000000) with 9223372036854 in H2. lia.
  - intros Hmono. split.
    + apply Z.quot_pos; [|lia]. apply time_Sub_nonneg.
      rewrite <- !app_assoc. apply Hmono.
    + rewrite <- app_assoc. apply Hmono.
Qed.

Lemma HealthCheckSpecificVM_times_witness :
  exists res : VMHealthCheckResult.t,
    run (HealthCheckSpecificVM Sample.participant (VirtualMachine.mk "i-1"))
      (Sample.env Sample.one_server) [] = Ok res /\
    0 <= VMHealthCheckResult.ResponseTime res /\
    clock (Sample.env Sample.one_server) [] <= VMHealthCheckResult.CheckedAt res.
Proof.
  destruct (HealthCheckSpecificVM_times (Sample.env Sample.one_server) []
              Sample.participant (VirtualMachine.mk "i-1")) as (res & Hrun & _ & Hmono).
  exists res. split; [exact Hrun|]. apply Hmono.
  intros h t. cbn [clock Sample.env]. rewrite length_app. lia.
Defined.

(** *** Two readings of one answer *)

Ltac split_key key :=
  repeat match goal with
  | |- context [String.eqb ?a key] =>
      destruct (String.eqb_spec a key) as [?|?]; [subst key; cbn [List.find fst snd]|]
  | |- context [String.eqb ?a (Json.fold_name key)] =>
      let H := fresh "Hf" in
      destruct (String.eqb_spec a (Json.fold_name key)) as [H|?]; [try rewrite <- H|]
  end.

Ltac settle_member Hs Hp :=
  let H1 := fresh "H1" in
  let H2 := fresh "H2" in
  vm_compute String.eqb; cbv beta iota; unfold Json.into, result_bind; cbn [snd];
  rewrite ?Hs, ?Hp; intros H1 H2;
  repeat match type of H1 with
         | context [match ?d with Ok _ => _ | Err _ => _ end] =>
             destruct d; try discriminate
         end;
  injection H1 as <-; injection H2 as <-; split; cbn; auto.

Lemma server_member_agree (key : string) (x : Json.value)
    (b b' : BasicServer.t) (r r' : RuntimeServer.t) :
  same_state b r ->
  match Json.find_field BasicServer.fields key with
  | Some d => d b x
  | None => Ok b
  end = Ok b' ->
  match Json.find_field RuntimeServer.fields key with
  | Some d => d r x
  | None => Ok r
  end = Ok r' ->
  same_state b' r'.
Proof.
  intros [Hs Hp].
  unfold Json.find_field, BasicServer.fields, RuntimeServer.fields.
  cbn [List.find fst snd].
  split_key key; settle_member Hs Hp.
Qed.

Lemma server_members_agree (members : list (string * Json.value)) :
  forall (b b' : BasicServer.t) (r r' : RuntimeServer.t),
    same_state b r ->
    Json.dec_members BasicServer.fields b members = Ok b' ->
    Json.dec_members RuntimeServer.fields r members = Ok r' ->
    same_state b' r'.
Proof.
  induction members as [|[key x] rest IH]; intros b b' r r' Hst Hb Hr.
  - cbn in Hb, Hr. injection Hb as <-. injection Hr as <-. exact Hst.
  - cbn [Json.dec_members] in Hb, Hr.
    pose proof (server_member_agree key x b) as Hstep.
    destruct (Json.find_field BasicServer.fields key) as [db|];
      destruct (Json.find_field RuntimeServer.fields key) as [dr|].
    + destruct (db b x) as [b1|] eqn:Eb; [|discriminate].
      destruct (dr r x) as [r1|] eqn:Er; [|discriminate].
      cbn [result_bind] in Hb, Hr. eapply IH; [|eassumption|eassumption].
      eapply Hstep; eauto.
    + destruct (db b x) as [b1|] eqn:Eb; [|discriminate].
      cbn [result_bind] in Hb. eapply IH; [|eassumption|eassumption].
      eapply Hstep; eauto.
    + destruct (dr r x) as [r1|] eqn:Er; [|discriminate].
      cbn [result_bind] in Hr. eapply IH; [|eassumption|eassumption].
      eapply Hstep; eauto.
    + eapply IH; [|eassumption|eassumption]. eapply Hstep; eauto.
Qed.

Lemma server_decode_agree (v : Json.value) (b b' : BasicServer.t)
    (r r' : RuntimeServer.t) :
  same_state b r ->
  BasicServer.decode b v = Ok b' ->
  RuntimeServer.decode r v = Ok r' ->
  same_state b' r'.
Proof.
  intros Hst. unfold BasicServer.decode, RuntimeServer.decode, Json.dec_struct.
  destruct v; try discriminate.
  - intros [= <-] [= <-]. exact Hst.
  - apply server_members_agree. exact Hst.
Qed.

Lemma response_members_agree (members : list (string * Json.value)) :
  forall (b b' : BasicResponse.t) (r r' : RuntimeResponse.t),
    same_state (BasicResponse.Server b) (RuntimeResponse.Server r) ->
    Json.dec_members BasicResponse.fields b members = Ok b' ->
    Json.dec_members RuntimeResponse.fields r members = Ok r' ->
    same_state (BasicResponse.Server b') (RuntimeResponse.Server r').
Proof.
  induction members as [|[key x] rest IH]; intros b b' r r' Hst Hb Hr.
  - cbn in Hb, Hr. injection Hb as <-. injection Hr as <-. exact Hst.
  - cbn [Json.dec_members] in Hb, Hr. revert Hb Hr.
    unfold Json.find_field, BasicResponse.fields, RuntimeResponse.fields.
    cbn [List.find fst snd].
    destruct (String.eqb "server" key);
      [|destruct (String.eqb (Json.fold_name "server") (Json.fold_name key))];
      cbv beta iota; cbn [snd]; unfold Json.into, result_bind;
      try (destruct (BasicServer.decode _ x) as [b1|] eqn:Eb; [|discriminate];
           destruct (RuntimeServer.decode _ x) as [r1|] eqn:Er; [|discriminate];
           apply IH; cbn; eapply server_decode_agree; eauto).
    apply IH. exact Hst.
Qed.

Lemma response_decode_agree (v : Json.value) (b : BasicResponse.t)
    (r : RuntimeResponse.t) :
  BasicResponse.decode BasicResponse.zero v = Ok b ->
  RuntimeResponse.decode RuntimeResponse.zero v = Ok r ->
  same_state (BasicResponse.Server b) (RuntimeResponse.Server r).
Proof.
  unfold BasicResponse.decode, RuntimeResponse.decode, Json.dec_struct.
  destruct v; try discriminate.
  - intros [= <-] [= <-]. split; reflexivity.
  - apply response_members_agree. split; reflexivity.
Qed.

(** X18: [GetVMInstance] and [GetVMRuntimeStatus] ask the same address with
    the same request, and on the same answer they agree: whenever both
    succeed, the runtime record carries the status and the power state of
    the descriptor. *)
Theorem runtime_status_agrees_with_instance (env : Env) (h h' h1 : list Event)
    (vm : VirtualMachine.t) (p : Participant.t) (token : string)
    (resp : http.Response) (vmInstance : VMInstance.t) (info : VMRuntimeInfo.t) :
  let url := server_url p (VirtualMachine.InstanceID vm) in
  client_Do env (h ++ [EvNewRequest "GET" url]) (get_request url token) = Ok resp ->
  GetAuthToken p env h' = (Ok token, h1) ->
  client_Do env (h1 ++ [EvNewRequest "GET" url]) (get_request url token) = Ok resp ->
  run (GetVMInstance vm p token) env h = Ok vmInstance ->
  run (GetVMRuntimeStatus p (VirtualMachine.InstanceID vm)) env h' = Ok info ->
  VMRuntimeInfo.Status info = VMInstance.Status vmInstance /\
  VMRuntimeInfo.PowerState info = VMInstance.PowerState vmInstance.
Proof.
  intros url Hdo Hauth Hdo' Hinst Hrun. unfold run in *.
  destruct (string_dec (VirtualMachine.InstanceID vm) "") as [Hid|Hid].
  { unfold GetVMInstance in Hinst. rewrite Hid in Hinst. discriminate. }
  pose proof (GetVMInstance_complete env h vm p token Hid) as Hc. cbv zeta in Hc.
  fold url in Hc. rewrite Hc in Hinst. clear Hc.
  pose proof (GetVMRuntimeStatus_complete env h' h1 p token
                (VirtualMachine.InstanceID vm) Hauth) as Hc. cbv zeta in Hc.
  fold url in Hc. rewrite Hc in Hrun. clear Hc.
  destruct (url_Parse env url) as [e|]; [discriminate|].
  rewrite Hdo in Hinst. rewrite Hdo' in Hrun.
  destruct (negb _); [discriminate|].
  destruct (http.BodyErr resp); [discriminate|].
  unfold unmarshal in *.
  destruct (json_scan env (http.Body resp)) as [v|e]; [|discriminate].
  cbn [result_bind] in *.
  destruct (BasicResponse.decode BasicResponse.zero v) as [b|e] eqn:Eb; [|discriminate].
  destruct (RuntimeResponse.decode RuntimeResponse.zero v) as [r|e] eqn:Er; [|discriminate].
  destruct (response_decode_agree v b r Eb Er) as [Hs Hp].
  cbv zeta in Hinst.
  destruct (GetFlavorDetails p token _ env _) as [lookup h2].
  cbn [fst] in Hinst, Hrun. injection Hinst as <-. injection Hrun as <-.
  cbn. split; assumption.
Qed.

Lemma runtime_status_agrees_with_instance_witness :
  run (GetVMInstance (VirtualMachine.mk "i-1") Sample.participant "abc")
    (Sample.env Sample.one_server) [] = Ok (descriptor Sample.server_1 Sample.flavor_1) /\
  run (GetVMRuntimeStatus Sample.participant "i-1") (Sample.env Sample.one_server) [] =
    Ok (VMRuntimeInfo.mk "i-1" "ACTIVE" 1 4000000) /\
  VMRuntimeInfo.Status (VMRuntimeInfo.mk "i-1" "ACTIVE" 1 4000000) =
    VMInstance.Status (descriptor Sample.server_1 Sample.flavor_1) /\
  VMRuntimeInfo.PowerState (VMRuntimeInfo.mk "i-1" "ACTIVE" 1 4000000) =
    VMInstance.PowerState (descriptor Sample.server_1 Sample.flavor_1).
Proof.
  split; [vm_compute; reflexivity|]. split; [vm_compute; reflexivity|].
  apply (runtime_status_agrees_with_instance (Sample.env Sample.one_server) [] []
           (exchange (Sample.env Sample.one_server) (token_request Sample.participant))
           (VirtualMachine.mk "i-1") Sample.participant "abc"
           (Sample.response 200 Sample.server_1_text));
    vm_compute; reflexivity.
Defined.

(** X19: an accepted answer to [GetVMInstance] whose body is a JSON object
    without a [server] member is not an error: the descriptor returned is
    empty in every field of the server, and the flavor looked up for it is
    the one with the empty id. *)
Theorem GetVMInstance_missing_server (env : Env) (h : list Event)
    (vm : VirtualMachine.t) (p : Participant.t) (token : string)
    (resp : http.Response) (members : list (string * Json.value)) :
  VirtualMachine.InstanceID vm <> "" ->
  let url := server_url p (VirtualMachine.InstanceID vm) in
  url_Parse env url = None ->
  client_Do env (h ++ [EvNewRequest "GET" url]) (get_request url token) = Ok resp ->
  http.StatusCode resp = 200 ->
  http.BodyErr resp = None ->
  json_scan env (http.Body resp) = Ok (Json.Object members) ->
  Forall (fun kv => misses "server" (fst kv)) members ->
  run (GetVMInstance vm p token) env h =
  Ok (descriptor BasicServer.zero
        (flavor_or_unknown BasicServer.zero
           (run (GetFlavorDetails p token "") env
              (h ++ exchange env (get_request url token))))).
Proof.
  intros Hid url Hurl Hdo Hst Hbody Hscan Hmiss.
  apply (GetVMInstance_descriptor env h vm p token resp BasicResponse.zero
           Hid Hurl Hdo Hst Hbody).
  unfold unmarshal. rewrite Hscan. cbn [result_bind].
  unfold BasicResponse.decode, Json.dec_struct, BasicResponse.fields.
  cbv beta iota. apply (dec_members_miss "server"). exact Hmiss.
Qed.

Lemma GetVMInstance_missing_server_witness :
  run (GetVMInstance (VirtualMachine.mk "i-1") Sample.participant "abc")
    (Sample.env [("GET", "http://controller/compute/v2.1/servers/i-1",
                  Sample.json 200 "{'servers': []}")]) [] =
  Ok (descriptor BasicServer.zero (FlavorDetails.mk "" "Unknown" 0 0 0)).
Proof.
  apply (GetVMInstance_missing_server
           (Sample.env [("GET", "http://controller/compute/v2.1/servers/i-1",
                         Sample.json 200 "{'servers': []}")]) []
           (VirtualMachine.mk "i-1") Sample.participant "abc"
           (Sample.response 200 "{'servers': []}")
           [("servers", Json.Array [])]).
  - discriminate.
  - reflexivity.
  - vm_compute. reflexivity.
  - reflexivity.
  - reflexivity.
  - vm_compute. reflexivity.
  - repeat constructor. vm_compute. discriminate.
Defined.
